(** * The dual-transport chat client of [frontend/app.js]

    A shallow embedding of the browser program: the global [state] object,
    the parts of the page and of the browser the handlers read and write,
    every handler of the source as a function in a small state-and-exception
    monad, and the event loop that calls them.

    Left out, because no handler reads them back: console output,
    scrolling, styling, the welcome section, the character counter, and
    the timers that remove a notice after a few seconds.  The theme has a
    record of its own. *)

From Stdlib Require Import QArith Ascii.
From stdpp Require Import gmap strings list fin_maps pretty.

#[local] Set Warnings "-register-all".

(** ** JavaScript values *)

Module JS.

(** The values the program handles.  Numbers are only stored, tested for
    truthiness and serialised, never computed with, so a finite number is
    kept as the rational it denotes (negative zero is not told apart from
    zero); [JNaN] and the two infinities are the numbers JSON cannot write.
    An object is a finite map from property names to values. *)
Inductive jsval :=
| JUndefined
| JNull
| JBool (b : bool)
| JNum (q : Q)
| JNaN
| JInfinity (negative : bool)
| JStr (s : string)
| JArr (l : list jsval)
| JObj (o : gmap string jsval).

(** [if (v)], [!v], [a && b]: JavaScript truthiness. *)
Definition truthy (v : jsval) : bool :=
  match v with
  | JUndefined | JNull | JNaN => false
  | JBool b => b
  | JNum q => negb (Qeq_bool q 0)
  | JStr s => negb (bool_decide (s = ""))
  | JInfinity _ | JArr _ | JObj _ => true
  end.

(** [o.k] on an object that is known not to be null: a missing property
    reads as [undefined]. *)
Definition prop (o : gmap string jsval) (k : string) : jsval :=
  default JUndefined (o !! k).

(** [v === 'literal'] for a string literal. *)
Definition is_str (v : jsval) (lit : string) : bool :=
  match v with
  | JStr s => bool_decide (s = lit)
  | _ => false
  end.

(** A string is kept as the bytes of its UTF-8 text (a lone surrogate as
    the three bytes of its code unit), which is how a string literal of
    this file reads.  [of_bytes] writes a string by its bytes. *)
Definition of_bytes (l : list N) : string :=
  String.string_of_list_ascii (map ascii_of_N l).

(** The three bytes of a code unit [u] from U+0800 on. *)
Definition three_bytes (u : N) : string :=
  of_bytes [224 + u / 4096; 128 + (u / 64) mod 64; 128 + u mod 64]%N.

(** The UTF-16 code units of a string, each as a string of its own: what
    indexing a JavaScript string gives.  A character of one, two or three
    bytes is one code unit; a character of four bytes is a pair of
    surrogates. *)
Fixpoint code_units (s : string) : list string :=
  match s with
  | EmptyString => []
  | String a s1 =>
      let x := N_of_ascii a in
      if (x <? 192)%N then String a "" :: code_units s1
      else if (x <? 224)%N then
        match s1 with
        | String b s2 => String a (String b "") :: code_units s2
        | _ => String a "" :: code_units s1
        end
      else if (x <? 240)%N then
        match s1 with
        | String b (String c s3) => String a (String b (String c "")) :: code_units s3
        | _ => String a "" :: code_units s1
        end
      else
        match s1 with
        | String b (String c (String d s4)) =>
            let v := ((x - 240) * 262144 + (N_of_ascii b - 128) * 4096
                      + (N_of_ascii c - 128) * 64 + (N_of_ascii d - 128) - 65536)%N in
            three_bytes (55296 + v / 1024) :: three_bytes (56320 + v mod 1024)
              :: code_units s4
        | _ => String a "" :: code_units s1
        end
  end.

(** The own enumerable properties object spread [{...v}] copies. *)
Definition index_props {A} (f : A -> jsval) (l : list A) : gmap string jsval :=
  list_to_map (imap (fun i x => (pretty i, f x)) l).

Definition own_props (v : jsval) : gmap string jsval :=
  match v with
  | JObj o => o
  | JArr l => index_props id l
  | JStr s => index_props JStr (code_units s)
  | _ => ∅
  end.

(** [{...a, ...b}]: the properties of [b] override those of [a]. *)
Definition spread (a : gmap string jsval) (b : jsval) : gmap string jsval :=
  own_props b ∪ a.

(** What [JSON.parse(JSON.stringify(v))] is: properties whose value is
    [undefined] are dropped, [undefined] array elements and the numbers
    JSON cannot write become [null]. *)
Fixpoint json_image (v : jsval) : jsval :=
  match v with
  | JUndefined | JNaN | JInfinity _ => JNull
  | JArr l => JArr (map json_image l)
  | JObj o =>
      JObj (omap (fun x => match x with
                           | JUndefined => None
                           | _ => Some (json_image x)
                           end) o)
  | _ => v
  end.

(** A string that is passed to [JSON.parse] or comes from [JSON.stringify].
    The program never looks at the characters of such a string, so a JSON
    text is represented by the value it denotes; [NotJson s] is a string
    [s] that is not a JSON text. *)
Inductive text :=
| Json (v : jsval)
| NotJson (s : string).

Definition JSON_stringify (v : jsval) : text := Json (json_image v).

(** A string is truthy when it is not empty; a JSON text never is empty. *)
Definition text_truthy (t : text) : bool :=
  match t with
  | Json _ => true
  | NotJson s => negb (bool_decide (s = ""))
  end.

(** [String.prototype.trim] strips the white space and the line
    terminators of ECMAScript from both ends.  By code point these are
    U+0009 to U+000D, U+0020, U+00A0, U+1680, U+2000 to U+200A, U+2028,
    U+2029, U+202F, U+205F, U+3000 and U+FEFF. *)
Definition is_whitespace (cp : N) : bool :=
  ((9 <=? cp) && (cp <=? 13) || (cp =? 32) || (cp =? 160) || (cp =? 5760)
   || (8192 <=? cp) && (cp <=? 8202) || (cp =? 8232) || (cp =? 8233)
   || (cp =? 8239) || (cp =? 8287) || (cp =? 12288) || (cp =? 65279))%N.

(** A continuation byte of UTF-8. *)
Definition continuation (y : N) : bool := ((128 <=? y) && (y <? 192))%N.

(** The number of bytes of the white space character a string starts
    with, 0 when it starts with none.  The character is decoded from its
    one, two or three bytes (no character of four bytes is white space);
    an encoding longer than its code point needs is no character. *)
Definition whitespace_prefix (s : string) : nat :=
  match s with
  | String a s1 =>
      let x := N_of_ascii a in
      if (x <? 128)%N then (if is_whitespace x then 1 else 0)
      else
        match s1 with
        | String b s2 =>
            let y := N_of_ascii b in
            if ((192 <=? x) && (x <? 224))%N then
              let cp := ((x - 192) * 64 + (y - 128))%N in
              if continuation y && (128 <=? cp)%N && is_whitespace cp then 2 else 0
            else
              match s2 with
              | String c _ =>
                  let z := N_of_ascii c in
                  let cp := ((x - 224) * 4096 + (y - 128) * 64 + (z - 128))%N in
                  if ((224 <=? x) && (x <? 240))%N && continuation y && continuation z
                     && (2048 <=? cp)%N && is_whitespace cp
                  then 3 else 0
              | EmptyString => 0
              end
        | EmptyString => 0
        end
  | EmptyString => 0
  end.

Fixpoint trimStart (s : string) : string :=
  match s with
  | String _ s1 =>
      match whitespace_prefix s with
      | 1 => trimStart s1
      | 2 => match s1 with String _ s2 => trimStart s2 | EmptyString => s end
      | 3 => match s1 with String _ (String _ s3) => trimStart s3 | _ => s end
      | _ => s
      end
  | EmptyString => EmptyString
  end.

(** The end is stripped from the first position on after which only white
    space follows. *)
Fixpoint trimEnd (s : string) : string :=
  match s with
  | String a s1 =>
      match trimStart s with
      | EmptyString => EmptyString
      | _ => String a (trimEnd s1)
      end
  | EmptyString => EmptyString
  end.

Definition trim (s : string) : string := trimEnd (trimStart s).

End JS.

Export JS.

(** ** Configuration ([CONFIG]) *)

Module CONFIG.
Definition apiBaseUrl : string := "http://localhost:8000".
Definition wsUrl : string := "ws://localhost:8000/ws/chat".
Definition defaultTemperature : jsval := JNum (7 # 10).
Definition defaultMaxLength : jsval := JNum (1000 # 1).
Definition useWebSocket : jsval := JBool true.
End CONFIG.

(** The delay of the reconnection timer set in [onclose], in milliseconds. *)
Definition reconnect_delay : Z := 5000.

(** The [localStorage] key of [saveSettings] and [loadSettings]. *)
Definition settings_key : string := "chatbot-settings".

(** ** The program state and the browser around it *)

(** An entry of [state.messages]: [{type, content, timestamp}], where
    [type] is ['user'] or ['bot']. *)
Record message := Message {
  type : string;
  content : jsval;
  timestamp : string
}.

(** The global [state] object.  [websocket] is [null] or a handle of a
    WebSocket object; [theme] is kept with the theme view below. *)
Record state := State {
  messages : list message;
  isTyping : jsval;
  websocket : option nat;
  settings : gmap string jsval
}.

Inductive readyState := CONNECTING | OPEN | CLOSING | CLOSED.

(** A [fetch] call, and the async function that awaits its result. *)
Record request := Request {
  url : string;
  method : string;
  body : option text
}.

Inductive awaiting := ChatReply | ResetReply | HealthReply.

(** What an awaited [fetch] settles to: a rejected promise, or a response
    with its status and body. *)
Inductive outcome :=
| NetworkError
| Response (status : Z) (payload : text).

Definition response_ok (status : Z) : bool :=
  (200 <=? status)%Z && (status <=? 299)%Z.

Inductive notice :=
| ErrorNotice (msg : jsval)
| SuccessNotice (msg : jsval).

Inductive callback := Reconnect.

(** The page and the browser, as far as the handlers touch them:
    - [messageInput]: [elements.messageInput.value];
    - [chatContainer]: the message elements appended to the chat, in
      document order;
    - [connectionStatus]: the class name of the status badge;
    - [notices]: every notice shown by [showError] and [showSuccess];
    - [sockets]: the [readyState] of every WebSocket created, by handle;
    - [outbox]: the frames handed to an open socket, in order;
    - [inflight]: the [fetch] calls that have not settled yet;
    - [timers]: the pending [setTimeout] calls that run program code;
    - [localStorage]: the persisted strings. *)
Record browser := Browser {
  messageInput : string;
  chatContainer : list message;
  connectionStatus : string;
  notices : list notice;
  sockets : list readyState;
  outbox : list (nat * text);
  inflight : list (request * awaiting);
  timers : list (Z * callback);
  localStorage : gmap string text
}.

Record world := World { st : state; env : browser }.

Definition on_st (f : state -> state) (w : world) : world :=
  World (f (st w)) (env w).

Definition on_env (f : browser -> browser) (w : world) : world :=
  World (st w) (f (env w)).

Definition set_messages (x : list message) (s : state) : state :=
  State x (isTyping s) (websocket s) (settings s).
Definition set_isTyping (x : jsval) (s : state) : state :=
  State (messages s) x (websocket s) (settings s).
Definition set_websocket (x : option nat) (s : state) : state :=
  State (messages s) (isTyping s) x (settings s).
Definition set_settings (x : gmap string jsval) (s : state) : state :=
  State (messages s) (isTyping s) (websocket s) x.

Definition set_messageInput (x : string) (b : browser) : browser :=
  Browser x (chatContainer b) (connectionStatus b) (notices b) (sockets b)
          (outbox b) (inflight b) (timers b) (localStorage b).
Definition set_chatContainer (x : list message) (b : browser) : browser :=
  Browser (messageInput b) x (connectionStatus b) (notices b) (sockets b)
          (outbox b) (inflight b) (timers b) (localStorage b).
Definition set_connectionStatus (x : string) (b : browser) : browser :=
  Browser (messageInput b) (chatContainer b) x (notices b) (sockets b)
          (outbox b) (inflight b) (timers b) (localStorage b).
Definition set_notices (x : list notice) (b : browser) : browser :=
  Browser (messageInput b) (chatContainer b) (connectionStatus b) x (sockets b)
          (outbox b) (inflight b) (timers b) (localStorage b).
Definition set_sockets (x : list readyState) (b : browser) : browser :=
  Browser (messageInput b) (chatContainer b) (connectionStatus b) (notices b) x
          (outbox b) (inflight b) (timers b) (localStorage b).
Definition set_outbox (x : list (nat * text)) (b : browser) : browser :=
  Browser (messageInput b) (chatContainer b) (connectionStatus b) (notices b)
          (sockets b) x (inflight b) (timers b) (localStorage b).
Definition set_inflight (x : list (request * awaiting)) (b : browser) : browser :=
  Browser (messageInput b) (chatContainer b) (connectionStatus b) (notices b)
          (sockets b) (outbox b) x (timers b) (localStorage b).
Definition set_timers (x : list (Z * callback)) (b : browser) : browser :=
  Browser (messageInput b) (chatContainer b) (connectionStatus b) (notices b)
          (sockets b) (outbox b) (inflight b) x (localStorage b).
Definition set_localStorage (x : gmap string text) (b : browser) : browser :=
  Browser (messageInput b) (chatContainer b) (connectionStatus b) (notices b)
          (sockets b) (outbox b) (inflight b) (timers b) x.

(** ** Handlers run in a state monad with exceptions

    A handler that throws keeps the writes it made before the throw. *)

Inductive exn :=
| SyntaxError
| TypeError
| InvalidStateError
| SendError
| FetchError
| HttpError (status : Z).

Definition M (A : Type) : Type := world -> (exn + A) * world.

Definition ret {A} (x : A) : M A := fun w => (inr x, w).

Definition bind {A B} (c : M A) (k : A -> M B) : M B := fun w =>
  match c w with
  | (inl e, w') => (inl e, w')
  | (inr x, w') => k x w'
  end.

Definition throw {A} (e : exn) : M A := fun w => (inl e, w).

Definition get : M world := fun w => (inr w, w).

Definition modify (f : world -> world) : M unit := fun w => (inr tt, f w).

Definition try_catch {A} (c : M A) (handler : exn -> M A) : M A := fun w =>
  match c w with
  | (inl e, w') => handler e w'
  | r => r
  end.

Definition try_finally {A} (c : M A) (final : M unit) : M A := fun w =>
  match c w with
  | (r, w') =>
      match final w' with
      | (inl e, w'') => (inl e, w'')
      | (inr _, w'') => (r, w'')
      end
  end.

(** The world a handler leaves behind, whether it returned or threw. *)
Definition exec {A} (c : M A) (w : world) : world := snd (c w).

Declare Scope js_scope.
Delimit Scope js_scope with js.
Notation "'let!' x ':=' c 'in' k" := (bind c (fun x => k))
  (at level 10, x name, c at level 100, k at level 200) : js_scope.
Notation "c >> k" := (bind c (fun _ => k))
  (at level 90, right associativity) : js_scope.
#[local] Open Scope js_scope.

(** [JSON.parse(t)]: throws on a string that is not a JSON text. *)
Definition JSON_parse (t : text) : M jsval :=
  match t with
  | Json v => ret v
  | NotJson _ => throw SyntaxError
  end.

(** [v.k]: throws on [null] and [undefined]; the names the program reads
    this way ([type], [isTyping], [response], [error]) are no properties of
    a primitive or of an array, where they read as [undefined]. *)
Definition member (v : jsval) (k : string) : M jsval :=
  match v with
  | JUndefined | JNull => throw TypeError
  | JObj o => ret (prop o k)
  | _ => ret JUndefined
  end.

(** ** The functions of [app.js] *)

(** [addMessage(type, content)]; [now] is [new Date().toISOString()].  The
    element built by [createMessageElement] is appended to the chat. *)
Definition addMessage (type : string) (content : jsval) (now : string) : M unit :=
  let message := Message type content now in
  modify (on_st (fun s => set_messages (messages s ++ [message]) s)) >>
  modify (on_env (fun b => set_chatContainer (chatContainer b ++ [message]) b)).

(** [setTyping(isTyping)]; the indicator and the disabled send button
    mirror the flag. *)
Definition setTyping (v : jsval) : M unit :=
  modify (on_st (set_isTyping v)).

(** [showError(message)] and [showSuccess(message)]: one notice each. *)
Definition showError (msg : jsval) : M unit :=
  modify (on_env (fun b => set_notices (notices b ++ [ErrorNotice msg]) b)).

Definition showSuccess (msg : jsval) : M unit :=
  modify (on_env (fun b => set_notices (notices b ++ [SuccessNotice msg]) b)).

(** [updateConnectionStatus(connected)]: the class name of the badge. *)
Definition updateConnectionStatus (connected : bool) : M unit :=
  modify (on_env (set_connectionStatus
    (if connected then "connection-status connected"
     else "connection-status disconnected"))).

(** [fetch(...)] up to the [await]: the request is in flight. *)
Definition fetch (r : request) (k : awaiting) : M unit :=
  modify (on_env (fun b => set_inflight (inflight b ++ [(r, k)]) b)).

(** [setTimeout(callback, ms)]. *)
Definition setTimeout (cb : callback) (ms : Z) : M unit :=
  modify (on_env (fun b => set_timers (timers b ++ [(ms, cb)]) b)).

(** The request of [sendViaRestAPI]. *)
Definition chat_request (message : string) (s : gmap string jsval) : request :=
  Request (CONFIG.apiBaseUrl +:+ "/api/chat") "POST"
    (Some (JSON_stringify (JObj
       {[ "message" := JStr message;
          "temperature" := prop s "temperature";
          "max_length" := prop s "maxLength" ]}))).

(** [sendViaRestAPI(message)], from the call to the first [await]. *)
Definition sendViaRestAPI (message : string) : M unit :=
  setTyping (JBool true) >>
  let! w := get in
  fetch (chat_request message (settings (st w))) ChatReply.

(** [sendViaRestAPI], from the settled [fetch] to the end: the body of the
    [try] after the [await], its [catch] and its [finally]. *)
Definition sendViaRestAPI_resumed (now : string) (r : outcome) : M unit :=
  try_finally
    (try_catch
       (match r with
        | NetworkError => throw FetchError
        | Response status payload =>
            if negb (response_ok status) then throw (HttpError status)
            else
              let! data := JSON_parse payload in
              let! response := member data "response" in
              addMessage "bot" response now
        end)
       (fun _ =>
          showError (JStr "Failed to get response from the chatbot. Please try again.")))
    (setTyping (JBool false)).

(** [state.websocket?.readyState === WebSocket.OPEN]. *)
Definition websocket_is_open (w : world) : bool :=
  match websocket (st w) with
  | Some h =>
      match sockets (env w) !! h with
      | Some OPEN => true
      | _ => false
      end
  | None => false
  end.

(** [state.websocket.send(frame)].  On an open socket the frame goes out; a
    connecting socket throws; a closing or closed one discards the frame.
    [fails] is the browser refusing the send for a reason of its own. *)
Definition websocket_send (fails : bool) (frame : text) : M unit :=
  let! w := get in
  match websocket (st w) with
  | None => throw TypeError
  | Some h =>
      if fails then throw SendError
      else
        match sockets (env w) !! h with
        | Some OPEN =>
            modify (on_env (fun b => set_outbox (outbox b ++ [(h, frame)]) b))
        | Some CONNECTING => throw InvalidStateError
        | _ => ret tt
        end
  end.

(** The frame of [sendViaWebSocket]. *)
Definition ws_frame (message : string) (s : gmap string jsval) : text :=
  JSON_stringify (JObj
    {[ "message" := JStr message;
       "temperature" := prop s "temperature";
       "maxLength" := prop s "maxLength" ]}).

(** [sendViaWebSocket(message)]: whatever the [try] throws, the [catch]
    shows a notice and calls [sendViaRestAPI]. *)
Definition sendViaWebSocket (fails : bool) (message : string) : M unit :=
  try_catch
    (let! w := get in
     websocket_send fails (ws_frame message (settings (st w))))
    (fun _ =>
       showError (JStr "Failed to send message via WebSocket. Trying REST API...") >>
       sendViaRestAPI message).

(** [sendMessage()]: the guard, the user message, the cleared input, and
    the choice of the transport. *)
Definition sendMessage (now : string) (fails : bool) : M unit :=
  let! w := get in
  let message := trim (messageInput (env w)) in
  if negb (truthy (JStr message)) || truthy (isTyping (st w)) then ret tt
  else
    addMessage "user" (JStr message) now >>
    modify (on_env (set_messageInput "")) >>
    let! w := get in
    if truthy (prop (settings (st w)) "useWebSocket") && websocket_is_open w
    then sendViaWebSocket fails message
    else sendViaRestAPI message.

(** [connectWebSocket()].  The constructor is given the well-formed
    [CONFIG.wsUrl] and does not throw; the four handlers it installs are
    [onopen], [onmessage], [onerror] and [onclose] below. *)
Definition connectWebSocket : M unit :=
  let! w := get in
  if websocket_is_open w then ret tt
  else
    modify (on_env (fun b => set_sockets (sockets b ++ [CONNECTING]) b)) >>
    modify (on_st (set_websocket (Some (length (sockets (env w)))))).

(** The four handlers of a socket. *)
Definition onopen : M unit := updateConnectionStatus true.

Definition onmessage (now : string) (data : text) : M unit :=
  let! data := JSON_parse data in
  let! ty := member data "type" in
  if is_str ty "typing" then
    let! flag := member data "isTyping" in
    setTyping flag
  else if is_str ty "message" then
    setTyping (JBool false) >>
    let! response := member data "response" in
    addMessage "bot" response now
  else if is_str ty "error" then
    let! error := member data "error" in
    showError error >>
    setTyping (JBool false)
  else ret tt.

Definition onerror : M unit := updateConnectionStatus false.

Definition onclose : M unit :=
  updateConnectionStatus false >>
  let! w := get in
  if truthy (prop (settings (st w)) "useWebSocket")
  then setTimeout Reconnect reconnect_delay
  else ret tt.

(** [socket.close()]: an open or connecting socket starts closing. *)
Definition close_socket (h : nat) : M unit :=
  modify (on_env (fun b =>
    set_sockets (alter (fun r => match r with
                                 | CONNECTING | OPEN => CLOSING
                                 | _ => r
                                 end) h (sockets b)) b)).

(** [disconnectWebSocket()]. *)
Definition disconnectWebSocket : M unit :=
  let! w := get in
  match websocket (st w) with
  | Some h =>
      close_socket h >>
      modify (on_st (set_websocket None)) >>
      updateConnectionStatus false
  | None => ret tt
  end.

(** [saveSettings()]. *)
Definition saveSettings : M unit :=
  let! w := get in
  modify (on_env (fun b =>
    set_localStorage
      (<[settings_key := JSON_stringify (JObj (settings (st w)))]> (localStorage b)) b)).

(** [loadSettings()]; the controls of the settings dialog are updated too. *)
Definition loadSettings : M unit :=
  let! w := get in
  match localStorage (env w) !! settings_key with
  | Some saved =>
      if text_truthy saved then
        let! parsed := JSON_parse saved in
        modify (on_st (fun s => set_settings (spread (settings s) parsed) s))
      else ret tt
  | None => ret tt
  end.

(** The three listeners of the settings controls; [n] is
    [parseFloat(e.target.value)], respectively [parseInt(e.target.value)]. *)
Definition set_setting (k : string) (v : jsval) : M unit :=
  modify (on_st (fun s => set_settings (<[k := v]> (settings s)) s)).

Definition on_temperature_input (n : jsval) : M unit :=
  set_setting "temperature" n >> saveSettings.

Definition on_maxLength_input (n : jsval) : M unit :=
  set_setting "maxLength" n >> saveSettings.

Definition on_useWebSocket_change (checked : bool) : M unit :=
  set_setting "useWebSocket" (JBool checked) >>
  saveSettings >>
  if checked then connectWebSocket else disconnectWebSocket.

(** [resetConversation()], up to the [await]; [confirmed] is the answer to
    the [confirm] dialog. *)
Definition resetConversation (confirmed : bool) : M unit :=
  if negb confirmed then ret tt
  else fetch (Request (CONFIG.apiBaseUrl +:+ "/api/reset") "POST" None) ResetReply.

(** [resetConversation], from the settled [fetch] on. *)
Definition resetConversation_resumed (r : outcome) : M unit :=
  try_catch
    (match r with
     | NetworkError => throw FetchError
     | Response status _ =>
         if response_ok status then
           modify (on_st (set_messages [])) >>
           modify (on_env (set_chatContainer [])) >>
           showSuccess (JStr "Conversation reset successfully!")
         else ret tt
     end)
    (fun _ => showError (JStr "Failed to reset conversation")).

(** [checkApiHealth()], before and after its [await]s. *)
Definition checkApiHealth : M unit :=
  fetch (Request (CONFIG.apiBaseUrl +:+ "/") "GET" None) HealthReply.

Definition checkApiHealth_resumed (r : outcome) : M unit :=
  try_catch
    (match r with
     | NetworkError => throw FetchError
     | Response _ payload => let! data := JSON_parse payload in ret tt
     end)
    (fun _ =>
       showError (JStr "Failed to connect to the chatbot API. Make sure the backend server is running.")).

(** [init()]; [loadTheme] and [setupEventListeners] change nothing of the
    world: the listeners are the cases of [dispatch] below. *)
Definition init : M unit :=
  loadSettings >>
  let! w := get in
  (if truthy (prop (settings (st w)) "useWebSocket") then connectWebSocket else ret tt) >>
  checkApiHealth.

(** ** The event loop *)

(** What the browser can deliver to the program.  [now] is the clock read
    by the handler, [fails] the fate of a WebSocket send it may attempt. *)
Inductive event :=
| PageLoaded
| InputTyped (value : string)
| SendClicked (now : string) (fails : bool)
| ExampleClicked (prompt : string) (now : string) (fails : bool)
| TemperatureInput (n : jsval)
| MaxLengthInput (n : jsval)
| UseWebSocketChanged (checked : bool)
| ResetClicked (confirmed : bool)
| SocketOpened (h : nat)
| SocketMessage (h : nat) (now : string) (data : text)
| SocketError (h : nat)
| SocketClosed (h : nat)
| TimerFired (i : nat)
| FetchSettled (i : nat) (now : string) (r : outcome).

Definition set_readyState (h : nat) (r : readyState) : M unit :=
  modify (on_env (fun b => set_sockets (<[h := r]> (sockets b)) b)).

(** The continuation of an awaited [fetch]. *)
Definition resume (k : awaiting) (now : string) (r : outcome) : M unit :=
  match k with
  | ChatReply => sendViaRestAPI_resumed now r
  | ResetReply => resetConversation_resumed r
  | HealthReply => checkApiHealth_resumed r
  end.

(** The handler an event runs; an event the browser cannot deliver in the
    current world (a frame on a socket that is not open, a timer that is
    not pending, ...) runs nothing. *)
Definition dispatch (e : event) : M unit :=
  let! w := get in
  match e with
  | PageLoaded => init
  | InputTyped value => modify (on_env (set_messageInput value))
  | SendClicked now fails => sendMessage now fails
  | ExampleClicked prompt now fails =>
      modify (on_env (set_messageInput prompt)) >> sendMessage now fails
  | TemperatureInput n => on_temperature_input n
  | MaxLengthInput n => on_maxLength_input n
  | UseWebSocketChanged checked => on_useWebSocket_change checked
  | ResetClicked confirmed => resetConversation confirmed
  | SocketOpened h =>
      match sockets (env w) !! h with
      | Some CONNECTING => set_readyState h OPEN >> onopen
      | _ => ret tt
      end
  | SocketMessage h now data =>
      match sockets (env w) !! h with
      | Some OPEN => onmessage now data
      | _ => ret tt
      end
  | SocketError h =>
      match sockets (env w) !! h with
      | Some CLOSED | None => ret tt
      | Some _ => onerror
      end
  | SocketClosed h =>
      match sockets (env w) !! h with
      | Some CLOSED | None => ret tt
      | Some _ => set_readyState h CLOSED >> onclose
      end
  | TimerFired i =>
      match timers (env w) !! i with
      | Some (_, Reconnect) =>
          modify (on_env (fun b => set_timers (delete i (timers b)) b)) >>
          connectWebSocket
      | None => ret tt
      end
  | FetchSettled i now r =>
      match inflight (env w) !! i with
      | Some (_, k) =>
          modify (on_env (fun b => set_inflight (delete i (inflight b)) b)) >>
          resume k now r
      | None => ret tt
      end
  end.

(** One turn of the event loop: an exception no handler catches is
    reported on the console and the loop goes on. *)
Definition step (w : world) (e : event) : world := exec (dispatch e) w.

Definition run (es : list event) (w : world) : world := fold_left step es w.

(** The world when the script starts, given what [localStorage] holds. *)
Definition state0 : state :=
  State [] (JBool false) None
    {[ "temperature" := CONFIG.defaultTemperature;
       "maxLength" := CONFIG.defaultMaxLength;
       "useWebSocket" := CONFIG.useWebSocket ]}.

Definition boot (storage : gmap string text) : world :=
  World state0 (Browser "" [] "" [] [] [] [] [] storage).

(** ** The theme

    [toggleTheme] and [loadTheme] work on [state.theme], on the
    [light-theme] class of the body, on the text of the theme icon and on
    the string saved under ['theme'], which is read as it is and never
    parsed.  None of the other functions touches them, so they are kept in
    a record of their own. *)

Inductive icon := Moon | Sun.

Record theme_view := ThemeView {
  theme : string;
  light_theme : bool;
  theme_icon : icon;
  saved_theme : option string
}.

(** [toggleTheme()]. *)
Definition toggleTheme (v : theme_view) : theme_view :=
  let t := if bool_decide (theme v = "dark") then "light" else "dark" in
  ThemeView t (negb (light_theme v))
    (if bool_decide (t = "dark") then Moon else Sun) (Some t).

(** [loadTheme()]. *)
Definition loadTheme (v : theme_view) : theme_view :=
  match saved_theme v with
  | Some savedTheme =>
      if negb (bool_decide (savedTheme = "")) then
        if bool_decide (savedTheme = "light")
        then ThemeView savedTheme true Sun (saved_theme v)
        else ThemeView savedTheme (light_theme v) (theme_icon v) (saved_theme v)
      else v
  | None => v
  end.

(** * Notions used in the statements *)

(** The twenty-five white space characters of ECMAScript, each by the
    bytes of its UTF-8 text: tab, line feed, vertical tab, form feed,
    carriage return, space, U+00A0, U+1680, U+2000 to U+200A, U+2028,
    U+2029, U+202F, U+205F, U+3000 and U+FEFF. *)
Definition whitespace_chars : list string :=
  map of_bytes
    [ [9]; [10]; [11]; [12]; [13]; [32]; [194; 160]; [225; 154; 128];
      [226; 128; 128]; [226; 128; 129]; [226; 128; 130]; [226; 128; 131];
      [226; 128; 132]; [226; 128; 133]; [226; 128; 134]; [226; 128; 135];
      [226; 128; 136]; [226; 128; 137]; [226; 128; 138];
      [226; 128; 168]; [226; 128; 169]; [226; 128; 175]; [226; 129; 159];
      [227; 128; 128]; [239; 187; 191] ]%N.

(** A string made of white space characters only. *)
Inductive blank : string -> Prop :=
| blank_empty : blank ""
| blank_more (c s : string) : In c whitespace_chars -> blank s -> blank (c +:+ s).

(** [state.settings.useWebSocket], read as a condition: the transport
    preference is the WebSocket. *)
Definition persistent_preferred (w : world) : bool :=
  truthy (prop (settings (st w)) "useWebSocket").

(** The first half of an accepted [sendMessage]: the user message is
    appended and the input cleared. *)
Definition accepted (message now : string) (w : world) : world :=
  on_env (set_messageInput "") (exec (addMessage "user" (JStr message) now) w).


(** The notices of the two [catch] blocks on the send path. *)
Definition socket_failure_notice : notice :=
  ErrorNotice (JStr "Failed to send message via WebSocket. Trying REST API...").

Definition chat_failure_notice : notice :=
  ErrorNotice (JStr "Failed to get response from the chatbot. Please try again.").

(** A round trip that failed: the request was rejected, or answered with a
    status outside 200-299. *)
Definition failed (r : outcome) : bool :=
  match r with
  | NetworkError => true
  | Response status _ => negb (response_ok status)
  end.

(** A settings value as the specification has it: a temperature in
    [0, 2], a positive integer length and a boolean transport preference,
    under the three keys of [state.settings]. *)
Definition valid_settings (s : gmap string jsval) : Prop :=
  exists (t : Q) (n : Z) (b : bool),
    (0 <= t)%Q /\ (t <= 2)%Q /\ (0 < n)%Z /\
    s = {[ "temperature" := JNum t;
           "maxLength" := JNum (inject_Z n);
           "useWebSocket" := JBool b ]}.

(** The values JSON writes as they are, one level deep. *)
Definition plain (v : jsval) : Prop :=
  match v with
  | JNull | JBool _ | JNum _ | JStr _ => True
  | _ => False
  end.




(** What a turn of the event loop does to the log and to the chat: it
    empties both, or appends the same entries, at most one, to both. *)
Definition store_effect (w w' : world) (cleared : bool) : Prop :=
  if cleared
  then messages (st w') = [] /\ chatContainer (env w') = []
  else exists added,
         messages (st w') = messages (st w) ++ added /\
         chatContainer (env w') = chatContainer (env w) ++ added /\
         length added <= 1.

(** The saved settings are the settings in memory. *)
Definition in_sync (w : world) : Prop :=
  localStorage (env w) !! settings_key =
  Some (JSON_stringify (JObj (settings (st w)))).

(** The events of the three settings controls. *)
Definition settings_event (e : event) : bool :=
  match e with
  | TemperatureInput _ | MaxLengthInput _ | UseWebSocketChanged _ => true
  | _ => false
  end.

(** What [parseFloat] and [parseInt] return: a number. *)
Definition is_number (v : jsval) : bool :=
  match v with
  | JNum _ | JNaN | JInfinity _ => true
  | _ => false
  end.


(** The events of the connection: socket events, the reconnection timer
    and the preference switch. *)
Definition connection_event (e : event) : bool :=
  match e with
  | SocketOpened _ | SocketError _ | SocketClosed _ | TimerFired _
  | UseWebSocketChanged _ => true
  | _ => false
  end.

(** [state.websocket] is [null] or one of the sockets created. *)
Definition handle_valid (w : world) : Prop :=
  match websocket (st w) with
  | Some h => h < length (sockets (env w))
  | None => True
  end.

(** [n] connection attempts that fail one after the other: the socket
    closes, the timer fires, and so on from socket [first]. *)
Fixpoint failed_attempts (first n : nat) : list event :=
  match n with
  | O => []
  | S n' => SocketClosed first :: TimerFired 0 :: failed_attempts (S first) n'
  end.

(** The theme, the class of the body and the icon agree. *)
Definition theme_coherent (v : theme_view) : Prop :=
  (theme v = "dark" /\ light_theme v = false /\ theme_icon v = Moon) \/
  (theme v = "light" /\ light_theme v = true /\ theme_icon v = Sun).

(** A complete exchange: the user types and sends a text, and one reply
    comes back, either as the answer to the fallback request (in flight at
    position [i]) or as a [message] frame on socket [h]. *)
Record exchange := Exchange {
  typed : string;
  sent_at : string;
  answer : string;
  answered_at : string
}.

Definition exchange_log (x : exchange) : list message :=
  [Message "user" (JStr (trim (typed x))) (sent_at x);
   Message "bot" (JStr (answer x)) (answered_at x)].

Definition fallback_events (i : nat) (x : exchange) : list event :=
  [InputTyped (typed x);
   SendClicked (sent_at x) false;
   FetchSettled i (answered_at x)
     (Response 200 (Json (JObj {[ "response" := JStr (answer x) ]})))].

Definition socket_events (h : nat) (x : exchange) : list event :=
  [InputTyped (typed x);
   SendClicked (sent_at x) false;
   SocketMessage h (answered_at x)
     (Json (JObj {[ "type" := JStr "message"; "response" := JStr (answer x) ]}))].

(** Worlds used as concrete inputs: the page loaded with an empty
    [localStorage] (its socket is still connecting), and the same page once
    the socket has opened. *)
Definition w_loaded : world := run [PageLoaded] (boot ∅).

Definition w_connected : world := run [PageLoaded; SocketOpened 0] (boot ∅).

(** ** Tactics *)

(** Unfolds the handlers and the monad down to the world they compute. *)
Ltac js_unfold :=
  unfold step, dispatch, resume, init, sendMessage, sendViaWebSocket,
    websocket_send, sendViaRestAPI, sendViaRestAPI_resumed, onopen, onmessage,
    onerror, onclose, connectWebSocket, disconnectWebSocket, close_socket,
    on_temperature_input, on_maxLength_input, on_useWebSocket_change,
    set_setting, saveSettings, loadSettings, resetConversation,
    resetConversation_resumed, checkApiHealth, checkApiHealth_resumed,
    set_readyState, addMessage, setTyping, showError, showSuccess,
    updateConnectionStatus, fetch, setTimeout, JSON_parse, member,
    try_finally, try_catch, exec, bind, ret, throw, get, modify in *.

Ltac js_simpl := js_unfold; cbn.

(** Turns a boolean test on numbers into the proposition it decides. *)
Ltac bool_props H :=
  repeat first
    [ rewrite orb_true_iff in H | rewrite andb_true_iff in H
    | rewrite N.leb_le in H | rewrite N.ltb_lt in H | rewrite N.eqb_eq in H ].

(** The two ways a goal about [store_effect] closes: nothing was added, or
    one entry was. *)
Ltac store_kept :=
  exists []; rewrite !app_nil_r; repeat split; auto.

Ltac store_grown :=
  eexists [_]; repeat split; auto.

(** Case analysis on an innermost test of the goal. *)
Ltac split_test :=
  match goal with
  | |- context [match ?x with _ => _ end] =>
      lazymatch x with
      | context [match _ with _ => _ end] => fail
      | _ => destruct x eqn:?
      end
  end.

(** Closes a goal about [handle_valid] once the case is fixed. *)
Ltac handle_done :=
  cbn; rewrite ?length_app, ?length_insert, ?length_alter; cbn;
  simplify_eq; (assumption || lia || exact I).

Ltac store_cases :=
  unfold store_effect; js_simpl;
  repeat (try solve [store_kept | store_grown]; split_test; cbn);
  try solve [store_kept | store_grown].

(** * Properties *)

(** ** The model on small inputs *)

Example trim_inner_space_kept : trim "  a b  " = "a b".
Proof. reflexivity. Qed.

Example trim_line_ends : trim (String "010" (String "009" "hi")) = "hi".
Proof. reflexivity. Qed.

(** An ideographic space, a space, "hi", a space, a line separator and a
    byte order mark: [trim] leaves "hi". *)
Example trim_unicode_space :
  trim (of_bytes [227; 128; 128; 32; 104; 105; 32; 226; 128; 168; 239; 187; 191]%N) = "hi".
Proof. vm_compute. reflexivity. Qed.

(** A no-break space is white space; the letter whose second byte is the
    same, U+00E0, is not, and neither is U+0085. *)
Example trim_no_break_space : trim (of_bytes [194; 160; 97; 194; 160]%N) = "a".
Proof. vm_compute. reflexivity. Qed.

Example trim_keeps_letters :
  trim (of_bytes [195; 160; 194; 133]%N) = of_bytes [195; 160; 194; 133]%N.
Proof. vm_compute. reflexivity. Qed.

(** The one code unit of a character of two bytes, the two surrogates of
    a character of four (U+1F600). *)
Example code_units_of_text :
  code_units (of_bytes [195; 169; 97; 240; 159; 152; 128]%N) =
  [of_bytes [195; 169]%N; "a"; of_bytes [237; 160; 189]%N; of_bytes [237; 184; 128]%N].
Proof. vm_compute. reflexivity. Qed.

(** [JSON.stringify({a: NaN, b: undefined, c: 1})] is [{"a":null,"c":1}]. *)
Example stringify_drops_undefined :
  JSON_stringify (JObj {[ "a" := JNaN; "b" := JUndefined; "c" := JNum 1 ]}) =
  Json (JObj {[ "a" := JNull; "c" := JNum 1 ]}).
Proof. vm_compute. reflexivity. Qed.

(** [{...{a: 1, b: 2}, ...{b: 3}}] is [{a: 1, b: 3}]; spreading a string
    copies its characters under their indices. *)
Example spread_overrides :
  spread {[ "a" := JNum 1; "b" := JNum 2 ]} (JObj {[ "b" := JNum 3 ]}) =
  {[ "a" := JNum 1; "b" := JNum 3 ]}.
Proof. vm_compute. reflexivity. Qed.

Example spread_string :
  spread ∅ (JStr "hi") = {[ "0" := JStr "h"; "1" := JStr "i" ]}.
Proof. vm_compute. reflexivity. Qed.

(** A saved partial object keeps the defaults of the keys it lacks. *)
Example load_merges_onto_defaults :
  settings (st (exec loadSettings
    (boot {[ settings_key := Json (JObj {[ "maxLength" := JNum 50 ]}) ]}))) =
  {[ "temperature" := CONFIG.defaultTemperature;
     "maxLength" := JNum 50;
     "useWebSocket" := CONFIG.useWebSocket ]}.
Proof. vm_compute. reflexivity. Qed.

(** The page after loading on an empty storage: the first socket is
    connecting and the health check is in flight. *)
Example loaded_page :
  sockets (env w_loaded) = [CONNECTING] /\
  websocket (st w_loaded) = Some 0 /\
  inflight (env w_loaded) = [(Request "http://localhost:8000/" "GET" None, HealthReply)].
Proof. repeat split; reflexivity. Qed.

(** ** Blank input *)

(** A white space character at the front is stripped. *)
Lemma trimStart_strips c s : In c whitespace_chars -> trimStart (c +:+ s) = trimStart s.
Proof.
  intros H. cbn in H.
  repeat (destruct H as [<- | H]; [reflexivity|]). contradiction.
Qed.

(** Trimming a blank string leaves nothing. *)
Lemma trimStart_blank s : blank s -> trimStart s = "".
Proof. induction 1 as [|c s Hc _ IH]; [reflexivity|]. rewrite trimStart_strips by exact Hc. exact IH. Qed.

(** A byte is the byte of its number. *)
Lemma ascii_of_code a : a = ascii_of_N (N_of_ascii a).
Proof. symmetry. apply ascii_N_embedding. Qed.

Lemma N_of_ascii_bound a : (N_of_ascii a < 256)%N.
Proof. apply N_ascii_bounded. Qed.

(** What [whitespace_prefix] counts is one of the twenty-five characters:
    the decoded code point and the bytes of the table agree. *)
Lemma prefix_table s :
  match whitespace_prefix s with
  | 0 => True
  | 1 => exists a r, s = String a r /\ In (String a "") whitespace_chars
  | 2 => exists a b r, s = String a (String b r) /\ In (String a (String b "")) whitespace_chars
  | 3 => exists a b c r, s = String a (String b (String c r))
                         /\ In (String a (String b (String c ""))) whitespace_chars
  | _ => False
  end.
Proof.
  destruct s as [|a s1]; cbn; [exact I|].
  pose proof (N_of_ascii_bound a) as Ba.
  destruct (N_of_ascii a <? 128)%N eqn:E1.
  - destruct (is_whitespace (N_of_ascii a)) eqn:W; [|exact I].
    exists a, s1. split; [reflexivity|].
    rewrite (ascii_of_code a). apply N.ltb_lt in E1.
    unfold is_whitespace in W. bool_props W.
    assert (Hx : (N_of_ascii a = 9 \/ N_of_ascii a = 10 \/ N_of_ascii a = 11 \/
                 N_of_ascii a = 12 \/ N_of_ascii a = 13 \/ N_of_ascii a = 32)%N) by lia.
    destruct Hx as [-> | [-> | [-> | [-> | [-> | ->]]]]]; cbn; tauto.
  - destruct s1 as [|b s2]; [exact I|].
    pose proof (N_of_ascii_bound b) as Bb.
    destruct ((192 <=? N_of_ascii a) && (N_of_ascii a <? 224))%N eqn:E2.
    + match goal with |- context [if ?c then 2 else 0] => destruct c eqn:W end; [|exact I].
      exists a, b, s2. split; [reflexivity|].
      rewrite (ascii_of_code a), (ascii_of_code b).
      unfold is_whitespace, continuation in W. bool_props W. bool_props E2.
      assert (Hx : (N_of_ascii a = 194 /\ N_of_ascii b = 160)%N) by lia.
      destruct Hx as [-> ->]. cbn. tauto.
    + destruct s2 as [|c s3]; [exact I|].
      pose proof (N_of_ascii_bound c) as Bc.
      match goal with |- context [if ?c then 3 else 0] => destruct c eqn:W end; [|exact I].
      exists a, b, c, s3. split; [reflexivity|].
      rewrite (ascii_of_code a), (ascii_of_code b), (ascii_of_code c).
      unfold is_whitespace, continuation in W. bool_props W.
      set (x := N_of_ascii a) in *. set (y := N_of_ascii b) in *. set (z := N_of_ascii c) in *.
      destruct W as [[[[Hx Hy] Hz] Hmin] W].
      assert (Hcase :
        ((x = 225 /\ y = 154 /\ z = 128) \/
        (x = 226 /\ y = 128 /\ 128 <= z <= 138) \/
        (x = 226 /\ y = 128 /\ z = 168) \/
        (x = 226 /\ y = 128 /\ z = 169) \/
        (x = 226 /\ y = 128 /\ z = 175) \/
        (x = 226 /\ y = 129 /\ z = 159) \/
        (x = 227 /\ y = 128 /\ z = 128) \/
        (x = 239 /\ y = 187 /\ z = 191))%N).
      { repeat destruct W as [W|W];
          first [ exfalso; lia
                | left; lia
                | right; left; lia
                | do 2 right; left; lia
                | do 3 right; left; lia
                | do 4 right; left; lia
                | do 5 right; left; lia
                | do 6 right; left; lia
                | do 7 right; lia ]. }
      destruct Hcase as [(-> & -> & ->) | [(-> & -> & Hr) | [(-> & -> & ->) |
                        [(-> & -> & ->) | [(-> & -> & ->) | [(-> & -> & ->) |
                        [(-> & -> & ->) | (-> & -> & ->)]]]]]]];
        try (cbn; tauto).
      assert (Hz' : (z = 128 \/ z = 129 \/ z = 130 \/ z = 131 \/ z = 132 \/ z = 133 \/
                     z = 134 \/ z = 135 \/ z = 136 \/ z = 137 \/ z = 138)%N) by lia.
      repeat (destruct Hz' as [-> | Hz']; [cbn; tauto|]). rewrite Hz'. cbn. tauto.
Qed.

(** One step of [trimStart]. *)
Lemma trimStart_unfold a s1 :
  trimStart (String a s1) =
  match whitespace_prefix (String a s1) with
  | 1 => trimStart s1
  | 2 => match s1 with String _ s2 => trimStart s2 | EmptyString => String a s1 end
  | 3 => match s1 with String _ (String _ s3) => trimStart s3 | _ => String a s1 end
  | _ => String a s1
  end.
Proof. reflexivity. Qed.

(** Only a blank string is stripped to nothing. *)
Lemma trimStart_empty_blank s : trimStart s = "" -> blank s.
Proof.
  remember (String.length s) as n eqn:Hn. revert s Hn.
  induction n as [n IH] using lt_wf_ind. intros s Hn H.
  destruct s as [|a s1]; [constructor|].
  pose proof (prefix_table (String a s1)) as T.
  rewrite trimStart_unfold in H.
  destruct (whitespace_prefix (String a s1)) as [|[|[|[|k]]]]; try discriminate H;
    try contradiction.
  - destruct T as (a' & r & Heq & Hin). injection Heq as <- <-.
    apply (blank_more (String a "") s1 Hin).
    apply (IH (String.length s1)); [subst n; cbn; lia | reflexivity | exact H].
  - destruct T as (a' & b & r & Heq & Hin). injection Heq as <- ->.
    apply (blank_more (String a (String b "")) r Hin).
    apply (IH (String.length r)); [subst n; cbn; lia | reflexivity | exact H].
  - destruct T as (a' & b & c & r & Heq & Hin). injection Heq as <- ->.
    apply (blank_more (String a (String b (String c ""))) r Hin).
    apply (IH (String.length r)); [subst n; cbn; lia | reflexivity | exact H].
Qed.

(** What [trimStart] returns starts with no white space, so stripping it
    again changes nothing. *)
Lemma trimStart_settled s : whitespace_prefix (trimStart s) = 0.
Proof.
  remember (String.length s) as n eqn:Hn. revert s Hn.
  induction n as [n IH] using lt_wf_ind. intros s Hn.
  destruct s as [|a s1]; [reflexivity|].
  pose proof (prefix_table (String a s1)) as T.
  rewrite trimStart_unfold.
  destruct (whitespace_prefix (String a s1)) as [|[|[|[|k]]]] eqn:E; try exact E;
    try contradiction.
  - apply (IH (String.length s1)); [subst n; cbn; lia | reflexivity].
  - destruct T as (a' & b & r & Heq & _). injection Heq as <- ->.
    apply (IH (String.length r)); [subst n; cbn; lia | reflexivity].
  - destruct T as (a' & b & c & r & Heq & _). injection Heq as <- ->.
    apply (IH (String.length r)); [subst n; cbn; lia | reflexivity].
Qed.

Lemma trimStart_fixed t : whitespace_prefix t = 0 -> trimStart t = t.
Proof. destruct t as [|a t1]; [reflexivity|]. intros H. rewrite trimStart_unfold, H. reflexivity. Qed.

(** [trimEnd] leaves nothing only of a string that is white space from its
    start. *)
Lemma trimEnd_empty t : trimEnd t = "" -> t = "" \/ trimStart t = "".
Proof.
  destruct t as [|a t1]; [left; reflexivity|]. cbn [trimEnd].
  destruct (trimStart (String a t1)) eqn:E; [right; reflexivity | discriminate].
Qed.

Lemma trim_blank s : blank s -> trim s = "".
Proof. intros H. unfold trim. rewrite (trimStart_blank s H). reflexivity. Qed.

Lemma trim_empty_blank s : trim s = "" -> blank s.
Proof.
  unfold trim. intros H. apply trimStart_empty_blank.
  destruct (trimEnd_empty _ H) as [Ht|Ht]; [exact Ht|].
  rewrite (trimStart_fixed _ (trimStart_settled s)) in Ht. exact Ht.
Qed.

(** C10: a send with an empty or all-white-space input returns at once and
    leaves the whole world as it was: nothing is appended to the
    conversation, nothing goes out on the socket or by [fetch], and the
    typing flag keeps its value. *)
Theorem blank_send_is_noop (w : world) (now : string) (fails : bool) :
  blank (messageInput (env w)) ->
  sendMessage now fails w = (inr tt, w).
Proof.
  intros H. unfold sendMessage, bind, get.
  rewrite (trim_blank _ H). reflexivity.
Qed.

Lemma blank_send_is_noop_witness :
  let input := of_bytes [32; 227; 128; 128; 9; 239; 187; 191; 226; 128; 168]%N in
  let w := run [InputTyped input] (boot ∅) in
  blank (messageInput (env w)) /\
  sendMessage "t" false w = (inr tt, w).
Proof.
  intros input w.
  assert (H : blank (messageInput (env w))).
  { apply (blank_more (of_bytes [32]%N) _); [cbn; tauto|].
    apply (blank_more (of_bytes [227; 128; 128]%N) _); [cbn; tauto|].
    apply (blank_more (of_bytes [9]%N) _); [cbn; tauto|].
    apply (blank_more (of_bytes [239; 187; 191]%N) _); [cbn; tauto|].
    apply (blank_more (of_bytes [226; 128; 168]%N) ""); [cbn; tauto|].
    constructor. }
  split; [exact H | exact (blank_send_is_noop w "t" false H)].
Defined.

(** ** The transport a send takes *)

(** An open socket is the socket [state.websocket] points to. *)
Lemma websocket_is_open_handle w :
  websocket_is_open w = true ->
  exists h, websocket (st w) = Some h /\ sockets (env w) !! h = Some OPEN.
Proof.
  unfold websocket_is_open. destruct (websocket (st w)) as [h|]; [|discriminate].
  destruct (sockets (env w) !! h) as [[]|] eqn:E; try discriminate.
  intros _. exists h. split; [reflexivity | exact E].
Qed.

(** [!message] is false on a non-empty string. *)
Lemma truthy_nonempty s : s <> "" -> truthy (JStr s) = true.
Proof. intros H. cbn. rewrite bool_decide_false by exact H. reflexivity. Qed.

(** The world after a send that passes the guard of [sendMessage]: the
    message is accepted; then the frame goes out on the open socket, or,
    with the notice of the failed socket send before it, the fallback
    request is made. *)
Lemma sendMessage_accepted (w : world) (now : string) (fails : bool) :
  trim (messageInput (env w)) <> "" ->
  truthy (isTyping (st w)) = false ->
  let message := trim (messageInput (env w)) in
  let w0 := accepted message now w in
  sendMessage now fails w =
  (inr tt,
   if persistent_preferred w && websocket_is_open w then
     if fails then
       exec (sendViaRestAPI message)
         (on_env (fun b => set_notices (notices b ++ [socket_failure_notice]) b) w0)
     else
       on_env (fun b =>
         set_outbox (outbox b ++
           [(default 0 (websocket (st w)), ws_frame message (settings (st w)))]) b) w0
   else exec (sendViaRestAPI message) w0).
Proof.
  intros Hne Hidle message w0. subst message w0.
  unfold persistent_preferred, accepted.
  unfold sendMessage, exec, bind, get.
  rewrite (truthy_nonempty _ Hne), Hidle. cbn [negb orb].
  js_simpl. unfold websocket_is_open. cbn.
  destruct (truthy (prop (settings (st w)) "useWebSocket")); cbn; [|reflexivity].
  destruct (websocket (st w)) as [h|] eqn:Hws; cbn; rewrite ?Hws; cbn; [|reflexivity].
  destruct (sockets (env w) !! h) as [[]|] eqn:E; cbn; rewrite ?Hws, ?E; cbn;
    try reflexivity.
  destruct fails; cbn; rewrite ?Hws, ?E; reflexivity.
Qed.

(** C1: a send that passes the guard of [sendMessage] (non-empty trimmed
    input, typing flag not set) takes exactly one transport.  When
    [useWebSocket] is on, [state.websocket] is a socket in the [OPEN]
    state and the socket send does not throw, the frame
    [{message, temperature, maxLength}] goes out on that socket and no
    [fetch] is made.  In every other case ([useWebSocket] off, no socket,
    a socket that is not open, or the socket send throwing) nothing goes
    out on a socket and exactly one [POST /api/chat] request, with body
    [{message, temperature, max_length}], is put in flight. *)
Theorem send_takes_one_transport (w : world) (now : string) (fails : bool) :
  trim (messageInput (env w)) <> "" ->
  truthy (isTyping (st w)) = false ->
  let message := trim (messageInput (env w)) in
  let s := settings (st w) in
  let w' := exec (sendMessage now fails) w in
  (forall h,
     truthy (prop s "useWebSocket") = true ->
     websocket (st w) = Some h ->
     sockets (env w) !! h = Some OPEN ->
     fails = false ->
     outbox (env w') =
       outbox (env w) ++
       [(h, JSON_stringify (JObj {[ "message" := JStr message;
                                    "temperature" := prop s "temperature";
                                    "maxLength" := prop s "maxLength" ]}))] /\
     inflight (env w') = inflight (env w)) /\
  (truthy (prop s "useWebSocket") = false \/
   websocket (st w) = None \/
   (exists h, websocket (st w) = Some h /\ sockets (env w) !! h <> Some OPEN) \/
   fails = true ->
   outbox (env w') = outbox (env w) /\
   inflight (env w') =
     inflight (env w) ++
     [(Request "http://localhost:8000/api/chat" "POST"
         (Some (JSON_stringify (JObj {[ "message" := JStr message;
                                        "temperature" := prop s "temperature";
                                        "max_length" := prop s "maxLength" ]}))),
       ChatReply)]).
Proof.
  intros Hne Hidle message s w'. subst message s w'.
  unfold exec. rewrite (sendMessage_accepted w now fails Hne Hidle). cbn [snd].
  unfold persistent_preferred. split.
  - intros h Hpref Hws Hopen ->.
    assert (Hready : websocket_is_open w = true).
    { unfold websocket_is_open. rewrite Hws, Hopen. reflexivity. }
    rewrite Hpref, Hready, Hws. split; reflexivity.
  - intros Hother.
    assert (Hroute : truthy (prop (settings (st w)) "useWebSocket")
                     && websocket_is_open w = false \/ fails = true).
    { destruct Hother as [Hpref|[Hws|[(h & Hws & Hclosed)|Hfails]]].
      - left. rewrite Hpref. reflexivity.
      - left. unfold websocket_is_open. rewrite Hws. apply andb_false_r.
      - left. unfold websocket_is_open. rewrite Hws.
        destruct (sockets (env w) !! h) as [[]|]; try apply andb_false_r.
        contradiction Hclosed. reflexivity.
      - right. exact Hfails. }
    destruct (truthy (prop (settings (st w)) "useWebSocket") && websocket_is_open w).
    + destruct Hroute as [Hroute| ->]; [discriminate Hroute|]. split; reflexivity.
    + split; reflexivity.
Qed.

Lemma send_takes_one_transport_witness :
  let w := step w_connected (InputTyped "hi") in
  let v := step w_loaded (InputTyped "hi") in
  (trim (messageInput (env w)) <> "" /\
   truthy (isTyping (st w)) = false /\
   truthy (prop (settings (st w)) "useWebSocket") = true /\
   websocket (st w) = Some 0 /\
   sockets (env w) !! 0 = Some OPEN) /\
  (outbox (env (exec (sendMessage "12:00" false) w)) =
     [(0, Json (JObj {[ "message" := JStr "hi";
                        "temperature" := JNum (7 # 10);
                        "maxLength" := JNum (1000 # 1) ]}))] /\
   inflight (env (exec (sendMessage "12:00" false) w)) = inflight (env w)) /\
  (trim (messageInput (env v)) <> "" /\
   truthy (isTyping (st v)) = false /\
   (exists h, websocket (st v) = Some h /\ sockets (env v) !! h <> Some OPEN)) /\
  outbox (env (exec (sendMessage "12:00" false) v)) = [] /\
  inflight (env (exec (sendMessage "12:00" false) v)) =
    inflight (env v) ++
    [(Request "http://localhost:8000/api/chat" "POST"
        (Some (Json (JObj {[ "message" := JStr "hi";
                             "temperature" := JNum (7 # 10);
                             "max_length" := JNum (1000 # 1) ]}))),
      ChatReply)].
Proof.
  intros w v.
  assert (Hne : trim (messageInput (env w)) <> "").
  { intros H. vm_compute in H. discriminate H. }
  assert (Hidle : truthy (isTyping (st w)) = false) by reflexivity.
  assert (Hpref : truthy (prop (settings (st w)) "useWebSocket") = true) by reflexivity.
  assert (Hws : websocket (st w) = Some 0) by reflexivity.
  assert (Hopen : sockets (env w) !! 0 = Some OPEN) by reflexivity.
  assert (Hne' : trim (messageInput (env v)) <> "").
  { intros H. vm_compute in H. discriminate H. }
  assert (Hidle' : truthy (isTyping (st v)) = false) by reflexivity.
  assert (Hclosed : exists h, websocket (st v) = Some h /\ sockets (env v) !! h <> Some OPEN).
  { exists 0. split; [reflexivity | discriminate]. }
  split; [repeat split; assumption|].
  split.
  - exact (proj1 (send_takes_one_transport w "12:00" false Hne Hidle)
             0 Hpref Hws Hopen eq_refl).
  - split; [repeat split; assumption|].
    exact (proj2 (send_takes_one_transport v "12:00" false Hne' Hidle')
             (or_intror (or_intror (or_introl Hclosed)))).
Defined.

(** ** One exchange at a time *)

(** A send under the raised flag does nothing. *)
Lemma sendMessage_rejected (w : world) (now : string) (fails : bool) :
  truthy (isTyping (st w)) = true -> sendMessage now fails w = (inr tt, w).
Proof.
  intros Hbusy. unfold sendMessage, bind, get. rewrite Hbusy, orb_true_r. reflexivity.
Qed.





(** An inbound frame does lower the flag during a fallback round trip:
    the page sends by [fetch] while its socket is connecting, the socket
    opens, a [typing] frame with [false] arrives, and a second send goes
    out on the socket with the request still in flight. *)
Example frame_lowers_flag_in_round_trip :
  let idle := Json (JObj {[ "type" := JStr "typing"; "isTyping" := JBool false ]}) in
  let w := run [InputTyped "a"; SendClicked "12:00" false; SocketOpened 0;
                SocketMessage 0 "12:01" idle;
                InputTyped "b"; SendClicked "12:02" false] w_loaded in
  length (inflight (env w)) = 2 /\
  length (outbox (env w)) = 1 /\
  length (messages (st w)) = 2.
Proof. vm_compute. repeat split; reflexivity. Qed.


(** ** The fallback round trip *)

(** The world after a successful reply: the bot message is appended and the
    typing flag cleared. *)
Lemma chat_reply_ok (w : world) (now : string) (status : Z) (o : gmap string jsval) :
  response_ok status = true ->
  sendViaRestAPI_resumed now (Response status (Json (JObj o))) w =
  (inr tt,
   on_st (set_isTyping (JBool false))
     (exec (addMessage "bot" (prop o "response") now) w)).
Proof. intros Hok. js_simpl. rewrite Hok. reflexivity. Qed.

(** The world after a failed round trip: one notice, no message, the
    typing flag cleared. *)
Lemma chat_reply_failed (w : world) (now : string) (r : outcome) :
  failed r = true ->
  sendViaRestAPI_resumed now r w =
  (inr tt,
   on_st (set_isTyping (JBool false))
     (on_env (fun b => set_notices (notices b ++ [chat_failure_notice]) b) w)).
Proof.
  destruct r as [|status payload]; cbn; intros H; js_simpl; [reflexivity|].
  rewrite H. reflexivity.
Qed.

(** Stringifying an object of a string and two finite numbers writes it as
    it is. *)
Lemma json_image_three (k1 k2 k3 s : string) (a b : Q) :
  json_image (JObj {[ k1 := JStr s; k2 := JNum a; k3 := JNum b ]}) =
  JObj {[ k1 := JStr s; k2 := JNum a; k3 := JNum b ]}.
Proof.
  cbn. f_equal. apply map_eq. intros i. rewrite lookup_omap.
  destruct (decide (k1 = i)) as [->|H1]; [rewrite !lookup_insert_eq; reflexivity|].
  rewrite !(lookup_insert_ne _ k1) by exact H1.
  destruct (decide (k2 = i)) as [->|H2]; [rewrite !lookup_insert_eq; reflexivity|].
  rewrite !(lookup_insert_ne _ k2) by exact H2.
  destruct (decide (k3 = i)) as [->|H3]; [rewrite !lookup_singleton_eq; reflexivity|].
  rewrite !lookup_singleton_ne by exact H3. reflexivity.
Qed.

(** C8: with the WebSocket preferred but not open, a send puts exactly one
    [POST /api/chat] request in flight, with body
    [{message, temperature, max_length}], and nothing on the socket.  When
    that request settles with status 200 and body [{response: reply}], one
    bot message with that reply is appended and no notice shown; when it
    fails (a rejected request, or a status outside 200-299 such as 500),
    the failure notice is shown and no message appended.  Either way the
    typing flag is cleared and the request is no longer in flight. *)
Theorem fallback_round_trip (w : world) (now : string) (fails : bool) (t m : Q) :
  trim (messageInput (env w)) <> "" ->
  truthy (isTyping (st w)) = false ->
  persistent_preferred w = true ->
  websocket_is_open w = false ->
  settings (st w) !! "temperature" = Some (JNum t) ->
  settings (st w) !! "maxLength" = Some (JNum m) ->
  let message := trim (messageInput (env w)) in
  let w1 := exec (sendMessage now fails) w in
  let i := length (inflight (env w)) in
  outbox (env w1) = outbox (env w) /\
  inflight (env w1) =
    inflight (env w) ++
    [(Request "http://localhost:8000/api/chat" "POST"
        (Some (Json (JObj {[ "message" := JStr message;
                             "temperature" := JNum t;
                             "max_length" := JNum m ]}))),
      ChatReply)] /\
  (forall (later reply : string),
     let w2 := step w1 (FetchSettled i later
                          (Response 200 (Json (JObj {[ "response" := JStr reply ]})))) in
     messages (st w2) = messages (st w1) ++ [Message "bot" (JStr reply) later] /\
     notices (env w2) = notices (env w1) /\
     isTyping (st w2) = JBool false /\
     inflight (env w2) = inflight (env w)) /\
  (forall (later : string) (r : outcome),
     failed r = true ->
     let w2 := step w1 (FetchSettled i later r) in
     messages (st w2) = messages (st w1) /\
     notices (env w2) = notices (env w1) ++ [chat_failure_notice] /\
     isTyping (st w2) = JBool false /\
     inflight (env w2) = inflight (env w)).
Proof.
  intros Hne Hidle Hpref Hclosed Ht Hm message w1 i.
  assert (Hw1 : w1 =
    on_env (fun b => set_inflight
              (inflight b ++ [(chat_request message (settings (st w)), ChatReply)]) b)
      (on_st (set_isTyping (JBool true))
         (on_env (set_messageInput "")
            (exec (addMessage "user" (JStr message) now) w)))).
  { subst w1 message. unfold exec at 1.
    rewrite (sendMessage_accepted w now fails Hne Hidle), Hpref, Hclosed.
    reflexivity. }
  assert (Hreq : chat_request message (settings (st w)) =
    Request "http://localhost:8000/api/chat" "POST"
      (Some (Json (JObj {[ "message" := JStr message;
                           "temperature" := JNum t;
                           "max_length" := JNum m ]})))).
  { unfold chat_request, JSON_stringify, prop. rewrite Ht, Hm. cbn [from_option id].
    rewrite json_image_three. reflexivity. }
  assert (Hin : inflight (env w1) =
    inflight (env w) ++ [(chat_request message (settings (st w)), ChatReply)]).
  { rewrite Hw1. reflexivity. }
  split; [rewrite Hw1; reflexivity|].
  split; [rewrite Hin, Hreq; reflexivity|].
  assert (Hstep : forall later r,
    step w1 (FetchSettled i later r) =
    exec (sendViaRestAPI_resumed later r)
      (on_env (set_inflight (inflight (env w))) w1)).
  { intros later r. unfold step, dispatch, exec at 1, bind at 1, get.
    rewrite Hin. subst i. rewrite list_lookup_middle by reflexivity.
    unfold bind, modify, resume, exec. cbn.
    do 2 f_equal. unfold on_env. f_equal. unfold set_inflight.
    rewrite Hin, (delete_middle _ []), app_nil_r. reflexivity. }
  split.
  - intros later reply w2. subst w2. rewrite Hstep.
    unfold exec. rewrite chat_reply_ok by reflexivity.
    unfold prop. rewrite lookup_singleton_eq. cbn. repeat split; reflexivity.
  - intros later r Hfail w2. subst w2. rewrite Hstep.
    unfold exec. rewrite (chat_reply_failed _ _ _ Hfail).
    cbn. repeat split; reflexivity.
Qed.

Lemma fallback_round_trip_witness :
  let w := step w_loaded (InputTyped "hello") in
  let w1 := exec (sendMessage "12:00" false) w in
  let w2 := step w1 (FetchSettled (length (inflight (env w))) "12:01"
                       (Response 500 (NotJson "Internal Server Error"))) in
  (trim (messageInput (env w)) <> "" /\
   truthy (isTyping (st w)) = false /\
   persistent_preferred w = true /\
   websocket_is_open w = false /\
   settings (st w) !! "temperature" = Some (JNum (7 # 10)) /\
   settings (st w) !! "maxLength" = Some (JNum (1000 # 1))) /\
  messages (st w2) = messages (st w1) /\
  notices (env w2) = notices (env w1) ++ [chat_failure_notice] /\
  isTyping (st w2) = JBool false /\
  inflight (env w2) = inflight (env w).
Proof.
  intros w w1 w2.
  assert (H1 : trim (messageInput (env w)) <> "").
  { intros H. vm_compute in H. discriminate H. }
  assert (H2 : truthy (isTyping (st w)) = false) by reflexivity.
  assert (H3 : persistent_preferred w = true) by reflexivity.
  assert (H4 : websocket_is_open w = false) by reflexivity.
  assert (H5 : settings (st w) !! "temperature" = Some (JNum (7 # 10))) by reflexivity.
  assert (H6 : settings (st w) !! "maxLength" = Some (JNum (1000 # 1))) by reflexivity.
  split; [repeat split; assumption|].
  pose proof (fallback_round_trip w "12:00" false (7 # 10) (1000 # 1) H1 H2 H3 H4 H5 H6)
    as (_ & _ & _ & Hfail).
  exact (Hfail "12:01" (Response 500 (NotJson "Internal Server Error")) eq_refl).
Defined.

(** ** The persistent path *)

(** What a [message] frame does, in any world: the typing flag is cleared
    and the reply appended as a bot message. *)
Lemma onmessage_message (w : world) (now : string) (o : gmap string jsval) :
  o !! "type" = Some (JStr "message") ->
  onmessage now (Json (JObj o)) w =
  (inr tt, exec (addMessage "bot" (prop o "response") now)
             (on_st (set_isTyping (JBool false)) w)).
Proof.
  intros Hty. unfold onmessage, JSON_parse, member, bind at 1 2, ret.
  unfold prop at 1 2 3. rewrite Hty. reflexivity.
Qed.

(** C9: with the WebSocket preferred and open, sending "hi" under the
    settings [{temperature: 0.7, maxLength: 1000}] puts exactly the frame
    [{message: "hi", temperature: 0.7, maxLength: 1000}] on the socket and
    makes no request; and whenever the frame
    [{type: "message", response: "hello"}] then arrives on that socket, the
    conversation gains [{type: 'bot', content: "hello"}] as its next
    entry. *)
Theorem persistent_exchange (w : world) (now : string) (h : nat) :
  trim (messageInput (env w)) = "hi" ->
  truthy (isTyping (st w)) = false ->
  persistent_preferred w = true ->
  websocket (st w) = Some h ->
  sockets (env w) !! h = Some OPEN ->
  settings (st w) !! "temperature" = Some (JNum (7 # 10)) ->
  settings (st w) !! "maxLength" = Some (JNum (1000 # 1)) ->
  let w1 := exec (sendMessage now false) w in
  outbox (env w1) =
    outbox (env w) ++
    [(h, Json (JObj {[ "message" := JStr "hi";
                       "temperature" := JNum (7 # 10);
                       "maxLength" := JNum (1000 # 1) ]}))] /\
  inflight (env w1) = inflight (env w) /\
  (forall (w2 : world) (later : string),
     sockets (env w2) !! h = Some OPEN ->
     let w3 := step w2 (SocketMessage h later
                          (Json (JObj {[ "type" := JStr "message";
                                         "response" := JStr "hello" ]}))) in
     messages (st w3) = messages (st w2) ++ [Message "bot" (JStr "hello") later]).
Proof.
  intros Hhi Hidle Hpref Hws Hopen Ht Hm w1.
  assert (Hne : trim (messageInput (env w)) <> "") by (rewrite Hhi; discriminate).
  assert (Hready : websocket_is_open w = true).
  { unfold websocket_is_open. rewrite Hws, Hopen. reflexivity. }
  assert (Hw1 : w1 =
    on_env (fun b => set_outbox (outbox b ++ [(h, ws_frame "hi" (settings (st w)))]) b)
      (accepted "hi" now w)).
  { subst w1. unfold exec.
    rewrite (sendMessage_accepted w now false Hne Hidle), Hpref, Hready, Hws, Hhi.
    reflexivity. }
  split.
  - rewrite Hw1. cbn. unfold ws_frame, JSON_stringify, prop.
    rewrite Ht, Hm. cbn [from_option id]. rewrite json_image_three. reflexivity.
  - split; [rewrite Hw1; reflexivity|].
    intros w2 later Hopen2 w3. subst w3.
    unfold step, dispatch, exec, bind at 1, get. rewrite Hopen2.
    rewrite onmessage_message by reflexivity. reflexivity.
Qed.

Lemma persistent_exchange_witness :
  let w := step w_connected (InputTyped "hi") in
  let w1 := exec (sendMessage "12:00" false) w in
  (trim (messageInput (env w)) = "hi" /\
   truthy (isTyping (st w)) = false /\
   persistent_preferred w = true /\
   websocket (st w) = Some 0 /\
   sockets (env w) !! 0 = Some OPEN /\
   settings (st w) !! "temperature" = Some (JNum (7 # 10)) /\
   settings (st w) !! "maxLength" = Some (JNum (1000 # 1))) /\
  outbox (env w1) =
    outbox (env w) ++
    [(0, Json (JObj {[ "message" := JStr "hi";
                       "temperature" := JNum (7 # 10);
                       "maxLength" := JNum (1000 # 1) ]}))] /\
  messages (st (step w1 (SocketMessage 0 "12:01"
                           (Json (JObj {[ "type" := JStr "message";
                                          "response" := JStr "hello" ]}))))) =
    messages (st w1) ++ [Message "bot" (JStr "hello") "12:01"].
Proof.
  intros w w1.
  assert (H1 : trim (messageInput (env w)) = "hi") by reflexivity.
  assert (H2 : truthy (isTyping (st w)) = false) by reflexivity.
  assert (H3 : persistent_preferred w = true) by reflexivity.
  assert (H4 : websocket (st w) = Some 0) by reflexivity.
  assert (H5 : sockets (env w) !! 0 = Some OPEN) by reflexivity.
  assert (H6 : settings (st w) !! "temperature" = Some (JNum (7 # 10))) by reflexivity.
  assert (H7 : settings (st w) !! "maxLength" = Some (JNum (1000 # 1))) by reflexivity.
  split; [repeat split; assumption|].
  pose proof (persistent_exchange w "12:00" 0 H1 H2 H3 H4 H5 H6 H7) as (Hout & _ & Hin).
  split; [exact Hout|].
  apply Hin. reflexivity.
Defined.

(** ** Saved settings *)

(** An object of plain values is written and read back as it is. *)
Lemma json_image_plain (o : gmap string jsval) :
  map_Forall (fun _ v => plain v) o -> json_image (JObj o) = JObj o.
Proof.
  intros Hall. cbn. f_equal. apply map_eq. intros i. rewrite lookup_omap.
  destruct (o !! i) as [v|] eqn:E; [|reflexivity].
  specialize (Hall i v E). destruct v; cbn in *; try contradiction; reflexivity.
Qed.

(** A valid settings value holds plain values only. *)
Lemma valid_settings_plain (s : gmap string jsval) :
  valid_settings s -> map_Forall (fun _ v => plain v) s.
Proof.
  intros (t & n & b & _ & _ & _ & ->) i v Hi.
  rewrite !lookup_insert_Some, lookup_singleton_Some in Hi.
  destruct Hi as [[_ <-]|[_ [[_ <-]|[_ [_ <-]]]]]; exact I.
Qed.

(** Spreading an object over one that has no other key gives the object. *)
Lemma union_covered (a b : gmap string jsval) : dom b ⊆ dom a -> a ∪ b = a.
Proof.
  intros Hsub. apply map_eq. intros i. rewrite lookup_union.
  destruct (a !! i) as [x|] eqn:Ea.
  - destruct (b !! i); reflexivity.
  - assert (Hb : b !! i = None).
    { apply not_elem_of_dom. intros Hin. apply Hsub in Hin.
      apply not_elem_of_dom in Ea. contradiction. }
    rewrite Hb. reflexivity.
Qed.

(** C2: when [saveSettings] has written a valid settings value [s], a
    [loadSettings] that reads that storage sets [state.settings] to exactly
    [s].  The reading page is any page whose current settings have no key
    outside those of [s]: the page that saved, or a page freshly started
    on its defaults. *)
Theorem settings_round_trip (w w2 : world) :
  valid_settings (settings (st w)) ->
  localStorage (env w2) = localStorage (env (exec saveSettings w)) ->
  dom (settings (st w2)) ⊆ dom (settings (st w)) ->
  loadSettings w2 = (inr tt, on_st (set_settings (settings (st w))) w2).
Proof.
  intros Hvalid Hstore Hdom.
  assert (Hsaved : localStorage (env w2) !! settings_key =
                   Some (Json (JObj (settings (st w))))).
  { rewrite Hstore. unfold saveSettings, exec, bind, get, modify.
    cbn -[json_image]. rewrite lookup_insert_eq. unfold JSON_stringify.
    rewrite (json_image_plain _ (valid_settings_plain _ Hvalid)). reflexivity. }
  unfold loadSettings, bind, get. rewrite Hsaved. cbn.
  unfold modify, spread. cbn.
  unfold on_st. rewrite (union_covered _ _ Hdom). reflexivity.
Qed.

Lemma settings_round_trip_witness :
  let w := step w_loaded (UseWebSocketChanged false) in
  let fresh := boot (localStorage (env (exec saveSettings w))) in
  (valid_settings (settings (st w)) /\
   localStorage (env fresh) = localStorage (env (exec saveSettings w)) /\
   dom (settings (st fresh)) ⊆ dom (settings (st w))) /\
  settings (st (exec loadSettings fresh)) = settings (st w) /\
  prop (settings (st (exec loadSettings fresh))) "useWebSocket" = JBool false.
Proof.
  intros w fresh.
  assert (H1 : valid_settings (settings (st w))).
  { exists (7 # 10)%Q, 1000%Z, false. repeat split; discriminate. }
  assert (H2 : localStorage (env fresh) = localStorage (env (exec saveSettings w)))
    by reflexivity.
  assert (H3 : dom (settings (st fresh)) ⊆ dom (settings (st w))).
  { assert (Heq : dom (settings (st fresh)) = dom (settings (st w)))
      by (vm_compute; reflexivity).
    rewrite Heq. reflexivity. }
  split; [repeat split; assumption|].
  unfold exec. rewrite (settings_round_trip w fresh H1 H2 H3).
  split; reflexivity.
Defined.

(** ** Inbound frames *)








(** ** The conversation log *)


Lemma connectWebSocket_store (w : world) :
  store_effect w (exec connectWebSocket w) false.
Proof.
  store_cases.
Qed.








(** ** Connecting and reconnecting *)

(** [connectWebSocket] on an open socket does nothing. *)
Lemma connect_when_open (w : world) :
  websocket_is_open w = true -> connectWebSocket w = (inr tt, w).
Proof. intros H. unfold connectWebSocket, bind, get. rewrite H. reflexivity. Qed.

(** A close while the WebSocket is preferred sets the five-second
    reconnection timer; a close while it is not sets none. *)
Lemma close_sets_timer (w : world) :
  timers (env (exec onclose w)) =
  if persistent_preferred w
  then timers (env w) ++ [(reconnect_delay, Reconnect)]
  else timers (env w).
Proof.
  unfold persistent_preferred. js_simpl.
  destruct (truthy (prop (settings (st w)) "useWebSocket")); reflexivity.
Qed.

(** [disconnectWebSocket] leaves the pending timers alone: the source
    keeps no handle of a timer and never calls [clearTimeout]. *)
Lemma disconnect_keeps_timers (w : world) :
  timers (env (exec disconnectWebSocket w)) = timers (env w).
Proof. js_simpl. destruct (websocket (st w)); reflexivity. Qed.

(** C3 at its failing input.  The page loads with the WebSocket preferred,
    the socket closes, and the reconnection timer is set.  The user then
    switches the preference off, which calls [disconnectWebSocket()]; the
    timer is still pending, and when it fires [connectWebSocket()] opens a
    new socket although the preference is off and the channel was
    disconnected. *)
Theorem pending_retry_survives_disconnect :
  let w1 := run [PageLoaded; SocketClosed 0] (boot ∅) in
  let w2 := step w1 (UseWebSocketChanged false) in
  let w3 := step w2 (TimerFired 0) in
  timers (env w1) = [(reconnect_delay, Reconnect)] /\
  persistent_preferred w2 = false /\
  websocket (st w2) = None /\
  timers (env w2) = [(reconnect_delay, Reconnect)] /\
  sockets (env w2) = [CLOSED] /\
  sockets (env w3) = [CLOSED; CONNECTING] /\
  websocket (st w3) = Some 1.
Proof. vm_compute. repeat split; reflexivity. Qed.

(** C6 at its failing input.  [connectWebSocket()] called while the current
    socket is still connecting creates a second socket and drops the
    handle of the first, which stays alive.  The event loop reaches such a
    call: a close sets the timer, the user switches the preference off and
    on again, which starts a new socket, and the timer fires while that
    socket is connecting. *)
Theorem connect_while_connecting_opens_another :
  let w := run [PageLoaded; SocketClosed 0;
                UseWebSocketChanged false; UseWebSocketChanged true] (boot ∅) in
  let w' := step w (TimerFired 0) in
  sockets (env w_loaded) = [CONNECTING] /\
  sockets (env (exec connectWebSocket w_loaded)) = [CONNECTING; CONNECTING] /\
  websocket (st (exec connectWebSocket w_loaded)) = Some 1 /\
  sockets (env w) = [CLOSED; CONNECTING] /\
  websocket (st w) = Some 1 /\
  sockets (env w') = [CLOSED; CONNECTING; CONNECTING] /\
  websocket (st w') = Some 2.
Proof. vm_compute. repeat split; reflexivity. Qed.

(** * Further properties of the functions *)

(** ** Loading the settings *)



(** X2: a saved text that is JSON for [null], a boolean or a number is
    read without effect, and so is an empty saved string or no saved entry
    at all: the settings stay as they are. *)
Theorem load_ignores_non_objects (w : world) :
  match localStorage (env w) !! settings_key with
  | None | Some (NotJson "") | Some (Json JNull) | Some (Json (JBool _))
  | Some (Json (JNum _)) => True
  | _ => False
  end ->
  loadSettings w = (inr tt, w).
Proof.
  destruct w as [s b]. unfold loadSettings, bind, get. cbn.
  destruct (localStorage b !! settings_key) as [[v|str]|]; [| |reflexivity].
  - destruct v; try contradiction; intros _; cbn; unfold modify, on_st, spread;
      cbn; rewrite (left_id_L ∅ (∪)); destruct s; reflexivity.
  - destruct str as [|c str]; [reflexivity | contradiction].
Qed.

Lemma load_ignores_non_objects_witness :
  let w := boot {[ settings_key := Json JNull ]} in
  match localStorage (env w) !! settings_key with
  | None | Some (NotJson "") | Some (Json JNull) | Some (Json (JBool _))
  | Some (Json (JNum _)) => True
  | _ => False
  end /\
  loadSettings w = (inr tt, w).
Proof.
  intros w.
  assert (H : match localStorage (env w) !! settings_key with
              | None | Some (NotJson "") | Some (Json JNull) | Some (Json (JBool _))
              | Some (Json (JNum _)) => True
              | _ => False
              end) by exact I.
  split; [exact H | exact (load_ignores_non_objects w H)].
Defined.

(** X3: a saved string that is not empty and not JSON makes [loadSettings]
    throw, and [init] with it: the start-up stops there, with no socket
    created and no health check made, and the world as it was. *)
Theorem corrupt_settings_stop_init (w : world) (s : string) :
  localStorage (env w) !! settings_key = Some (NotJson s) ->
  s <> "" ->
  loadSettings w = (inl SyntaxError, w) /\ init w = (inl SyntaxError, w).
Proof.
  intros Hsaved Hne.
  assert (Hload : loadSettings w = (inl SyntaxError, w)).
  { unfold loadSettings, bind, get. rewrite Hsaved. cbn.
    rewrite bool_decide_false by exact Hne. reflexivity. }
  split; [exact Hload|].
  unfold init, bind at 1. rewrite Hload. reflexivity.
Qed.

Lemma corrupt_settings_stop_init_witness :
  let w := boot {[ settings_key := NotJson "{oops" ]} in
  (localStorage (env w) !! settings_key = Some (NotJson "{oops") /\ "{oops" <> "") /\
  init w = (inl SyntaxError, w) /\
  sockets (env (step w PageLoaded)) = [] /\
  inflight (env (step w PageLoaded)) = [].
Proof.
  intros w.
  assert (H1 : localStorage (env w) !! settings_key = Some (NotJson "{oops"))
    by reflexivity.
  assert (H2 : "{oops" <> "") by discriminate.
  split; [split; assumption|].
  destruct (corrupt_settings_stop_init w "{oops" H1 H2) as [_ Hinit].
  split; [exact Hinit|].
  unfold step, dispatch, exec, bind, get. rewrite Hinit. split; reflexivity.
Defined.

(** Loading a saved object that has every key of the current settings
    replaces them by it. *)
Lemma load_covering_object (w : world) (o : gmap string jsval) :
  localStorage (env w) !! settings_key = Some (Json (JObj o)) ->
  dom (settings (st w)) ⊆ dom o ->
  loadSettings w = (inr tt, on_st (set_settings o) w).
Proof.
  intros Hsaved Hdom. unfold loadSettings, bind, get. rewrite Hsaved. cbn.
  unfold modify, spread, on_st. cbn. rewrite (union_covered _ _ Hdom). reflexivity.
Qed.

Lemma valid_settings_dom (s : gmap string jsval) :
  valid_settings s -> dom (settings state0) ⊆ dom s.
Proof.
  intros (t & n & b & _ & _ & _ & ->).
  match goal with
  | |- dom ?a ⊆ dom ?b =>
      assert (Heq : dom a = dom b) by (vm_compute; reflexivity);
      rewrite Heq; reflexivity
  end.
Qed.

(** X4: a page that starts on saved valid settings runs with exactly
    those settings, creates its socket when, and only when, they prefer
    the WebSocket, and makes the health check either way. *)
Theorem init_on_saved_settings (storage : gmap string text) (s : gmap string jsval) :
  valid_settings s ->
  storage !! settings_key = Some (Json (JObj s)) ->
  let w := exec init (boot storage) in
  init (boot storage) = (inr tt, w) /\
  settings (st w) = s /\
  sockets (env w) = (if persistent_preferred w then [CONNECTING] else []) /\
  websocket (st w) = (if persistent_preferred w then Some 0 else None) /\
  inflight (env w) = [(Request "http://localhost:8000/" "GET" None, HealthReply)].
Proof.
  intros Hvalid Hsaved w. subst w.
  pose proof (load_covering_object (boot storage) s Hsaved
                (valid_settings_dom s Hvalid)) as Hload.
  assert (Hinit : init (boot storage) =
    ((if truthy (prop s "useWebSocket") then connectWebSocket else ret tt) >>
     checkApiHealth) (on_st (set_settings s) (boot storage))).
  { unfold init. unfold bind at 1. rewrite Hload. reflexivity. }
  unfold persistent_preferred, exec. rewrite Hinit.
  destruct (truthy (prop s "useWebSocket")) eqn:E; js_simpl; rewrite ?E;
    repeat split; reflexivity.
Qed.

Lemma init_on_saved_settings_witness :
  let s := {[ "temperature" := JNum (3 # 2); "maxLength" := JNum (inject_Z 200);
              "useWebSocket" := JBool false ]} : gmap string jsval in
  let storage := {[ settings_key := Json (JObj s) ]} : gmap string text in
  let w := exec init (boot storage) in
  (valid_settings s /\ storage !! settings_key = Some (Json (JObj s))) /\
  settings (st w) = s /\ sockets (env w) = [] /\ websocket (st w) = None.
Proof.
  intros s storage w.
  assert (H1 : valid_settings s).
  { exists (3 # 2)%Q, 200%Z, false. repeat split; discriminate. }
  assert (H2 : storage !! settings_key = Some (Json (JObj s))) by reflexivity.
  split; [split; assumption|].
  destruct (init_on_saved_settings storage s H1 H2) as (_ & Hs & Hsock & Hws & _).
  split; [exact Hs|]. split; [exact Hsock | exact Hws].
Defined.

(** ** Saving the settings *)

(** Only [init] and the settings controls write the settings or the
    storage. *)
Lemma step_keeps_settings (w : world) (e : event) :
  settings_event e = false ->
  e <> PageLoaded ->
  settings (st (step w e)) = settings (st w) /\
  localStorage (env (step w e)) = localStorage (env w).
Proof.
  intros Hs Hp. destruct e; try discriminate Hs; try congruence;
    js_simpl;
    repeat (try solve [split; reflexivity]; split_test; cbn);
    try solve [split; reflexivity].
Qed.

Lemma settings_event_syncs (w : world) (e : event) :
  settings_event e = true -> in_sync (step w e).
Proof.
  intros Hs. unfold in_sync. destruct e; try discriminate Hs; js_simpl.
  - rewrite lookup_insert_eq. reflexivity.
  - rewrite lookup_insert_eq. reflexivity.
  - repeat (try solve [cbn; rewrite lookup_insert_eq; reflexivity]; split_test; cbn);
      try solve [cbn; rewrite lookup_insert_eq; reflexivity].
Qed.

Lemma step_keeps_sync (w : world) (e : event) :
  e <> PageLoaded -> in_sync w -> in_sync (step w e).
Proof.
  intros Hp Hsync. destruct (settings_event e) eqn:Hs.
  - apply settings_event_syncs, Hs.
  - destruct (step_keeps_settings w e Hs Hp) as [Hset Hsto].
    unfold in_sync. rewrite Hset, Hsto. exact Hsync.
Qed.

(** X5: every change made with a settings control is saved at once, and
    from then on the saved settings are the settings in memory, whatever
    the program does next (short of the page loading again). *)
Theorem saved_settings_follow (w : world) (e : event) (es : list event) :
  settings_event e = true ->
  Forall (fun e' => e' <> PageLoaded) es ->
  in_sync (run es (step w e)).
Proof.
  intros Hs Hes. pose proof (settings_event_syncs w e Hs) as Hsync.
  generalize dependent (step w e). clear Hs.
  induction Hes as [|e' es He' _ IH]; intros w' Hsync; [exact Hsync|].
  cbn. apply IH, step_keeps_sync; assumption.
Qed.

Lemma saved_settings_follow_witness :
  let es := [InputTyped "hi"; SendClicked "12:00" false; SocketClosed 0] in
  (settings_event (TemperatureInput (JNum 1)) = true /\
   Forall (fun e' => e' <> PageLoaded) es) /\
  in_sync (run es (step w_loaded (TemperatureInput (JNum 1)))).
Proof.
  intros es.
  assert (H1 : settings_event (TemperatureInput (JNum 1)) = true) by reflexivity.
  assert (H2 : Forall (fun e' => e' <> PageLoaded) es).
  { repeat constructor; discriminate. }
  split; [split; assumption|].
  exact (saved_settings_follow w_loaded (TemperatureInput (JNum 1)) es H1 H2).
Defined.

(** X6: the number a settings control writes comes back on the next page
    load as JSON keeps it: a finite number as it is, [NaN] (what
    [parseInt] makes of an empty field) and the infinities as [null]. *)
Theorem written_number_reloads_as_json (w : world) (n : jsval) :
  is_number n = true ->
  let reloaded e :=
    settings (st (exec loadSettings (boot (localStorage (env (step w e)))))) in
  reloaded (MaxLengthInput n) !! "maxLength" = Some (json_image n) /\
  reloaded (TemperatureInput n) !! "temperature" = Some (json_image n).
Proof.
  intros Hn reloaded. subst reloaded. cbn beta.
  split; js_simpl; rewrite lookup_insert_eq; cbn; unfold modify, spread; cbn;
    rewrite lookup_union, lookup_omap, lookup_insert_eq;
    destruct n; try discriminate Hn; reflexivity.
Qed.

Lemma written_number_reloads_as_json_witness :
  is_number JNaN = true /\
  settings (st (exec loadSettings
    (boot (localStorage (env (step w_loaded (MaxLengthInput JNaN))))))) !! "maxLength"
  = Some JNull.
Proof.
  assert (H : is_number JNaN = true) by reflexivity.
  split; [exact H|].
  exact (proj1 (written_number_reloads_as_json w_loaded JNaN H)).
Defined.

(** ** Sending *)

(** X7: a send that passes the guard records the trimmed input, and only
    that: the log and the chat gain one user message whose content is the
    input without its leading and trailing white space, the input field
    is emptied, and a notice is shown only when the socket send was tried
    and threw. *)
Theorem accepted_send_records_input (w : world) (now : string) (fails : bool) :
  trim (messageInput (env w)) <> "" ->
  truthy (isTyping (st w)) = false ->
  let w' := exec (sendMessage now fails) w in
  let entry := Message "user" (JStr (trim (messageInput (env w)))) now in
  messages (st w') = messages (st w) ++ [entry] /\
  chatContainer (env w') = chatContainer (env w) ++ [entry] /\
  messageInput (env w') = "" /\
  notices (env w') =
    notices (env w) ++
    (if persistent_preferred w && websocket_is_open w && fails
     then [socket_failure_notice] else []).
Proof.
  intros Hne Hidle w' entry. subst w' entry.
  unfold exec. rewrite (sendMessage_accepted w now fails Hne Hidle). cbn [snd].
  destruct (persistent_preferred w), (websocket_is_open w), fails; cbn;
    rewrite ?app_nil_r; repeat split; reflexivity.
Qed.

Lemma accepted_send_records_input_witness :
  let w := step w_connected (InputTyped "  hello  ") in
  (trim (messageInput (env w)) <> "" /\ truthy (isTyping (st w)) = false) /\
  messages (st (exec (sendMessage "12:00" true) w)) =
    [Message "user" (JStr "hello") "12:00"] /\
  notices (env (exec (sendMessage "12:00" true) w)) = [socket_failure_notice].
Proof.
  intros w.
  assert (H1 : trim (messageInput (env w)) <> "").
  { intros H. vm_compute in H. discriminate H. }
  assert (H2 : truthy (isTyping (st w)) = false) by reflexivity.
  split; [split; assumption|].
  destruct (accepted_send_records_input w "12:00" true H1 H2) as (Hm & _ & _ & Hn).
  split; [exact Hm | exact Hn].
Defined.

(** X8: a send is turned away exactly when the input is blank or the
    typing flag is set; in every other case it changes the world. *)
Theorem send_rejected_iff (w : world) (now : string) (fails : bool) :
  sendMessage now fails w = (inr tt, w) <->
  blank (messageInput (env w)) \/ truthy (isTyping (st w)) = true.
Proof.
  split.
  - intros Hnoop.
    destruct (decide (trim (messageInput (env w)) = "")) as [He|Hne];
      [left; apply trim_empty_blank, He|].
    destruct (truthy (isTyping (st w))) eqn:Hbusy; [right; reflexivity|].
    exfalso.
    pose proof (sendMessage_accepted w now fails Hne Hbusy) as Hacc.
    cbv zeta in Hacc. rewrite Hnoop in Hacc.
    apply (f_equal (fun r => length (messages (st (snd r))))) in Hacc.
    revert Hacc. cbn [snd].
    destruct (persistent_preferred w), (websocket_is_open w), fails; cbn;
      rewrite length_app; cbn; lia.
  - intros [Hblank|Hbusy]; unfold sendMessage, bind, get.
    + rewrite (trim_blank _ Hblank). reflexivity.
    + rewrite Hbusy, orb_true_r. reflexivity.
Qed.

(** ** Replies *)


(** X10: a [typing] frame on an open socket sets the typing flag to the
    [isTyping] value it carries, whatever that value is, and touches
    neither the log nor the notices; when the value is truthy, every send
    is turned away until another frame or a reply lowers the flag. *)
Theorem typing_frame_gates_sending
    (w : world) (h : nat) (now : string) (o : gmap string jsval) :
  sockets (env w) !! h = Some OPEN ->
  o !! "type" = Some (JStr "typing") ->
  let w' := step w (SocketMessage h now (Json (JObj o))) in
  isTyping (st w') = prop o "isTyping" /\
  messages (st w') = messages (st w) /\
  notices (env w') = notices (env w) /\
  (truthy (prop o "isTyping") = true ->
   forall now' fails, sendMessage now' fails w' = (inr tt, w')).
Proof.
  intros Hopen Hty w'.
  assert (Hw' : w' = on_st (set_isTyping (prop o "isTyping")) w).
  { subst w'. unfold step, dispatch, exec, bind at 1, get. rewrite Hopen.
    unfold onmessage, JSON_parse, member, bind, ret, prop. rewrite Hty. reflexivity. }
  rewrite Hw'. repeat split.
  intros Htrue now' fails. apply sendMessage_rejected. exact Htrue.
Qed.

Lemma typing_frame_gates_sending_witness :
  let o := {[ "type" := JStr "typing"; "isTyping" := JBool true ]} : gmap string jsval in
  let w := step w_connected (InputTyped "hi") in
  let w' := step w (SocketMessage 0 "12:00" (Json (JObj o))) in
  (sockets (env w) !! 0 = Some OPEN /\ o !! "type" = Some (JStr "typing") /\
   truthy (prop o "isTyping") = true) /\
  isTyping (st w') = JBool true /\
  sendMessage "12:01" false w' = (inr tt, w').
Proof.
  intros o w w'.
  assert (H1 : sockets (env w) !! 0 = Some OPEN) by reflexivity.
  assert (H2 : o !! "type" = Some (JStr "typing")) by reflexivity.
  assert (H3 : truthy (prop o "isTyping") = true) by reflexivity.
  split; [repeat split; assumption|].
  destruct (typing_frame_gates_sending w 0 "12:00" o H1 H2) as (Hflag & _ & _ & Hgate).
  split; [exact Hflag | exact (Hgate H3 "12:01" false)].
Defined.



(** ** The connection *)

(** X12: no event of the connection (a socket opening, failing or closing,
    the reconnection timer, the preference switch) touches the typing
    flag, the log or the input.  So a flag raised by a [typing] frame
    outlives the loss of the socket: sends stay turned away. *)
Theorem connection_events_keep_flag (w : world) (e : event) :
  connection_event e = true ->
  isTyping (st (step w e)) = isTyping (st w) /\
  messages (st (step w e)) = messages (st w) /\
  messageInput (env (step w e)) = messageInput (env w) /\
  (truthy (isTyping (st w)) = true ->
   forall now fails, sendMessage now fails (step w e) = (inr tt, step w e)).
Proof.
  intros He.
  assert (H : isTyping (st (step w e)) = isTyping (st w) /\
              messages (st (step w e)) = messages (st w) /\
              messageInput (env (step w e)) = messageInput (env w)).
  { destruct e; try discriminate He; js_simpl;
      repeat (try solve [repeat split; reflexivity]; split_test; cbn);
      try solve [repeat split; reflexivity]. }
  destruct H as (Hflag & Hlog & Hin). repeat split; try assumption.
  intros Hbusy now fails. apply sendMessage_rejected. rewrite Hflag. exact Hbusy.
Qed.

Lemma connection_events_keep_flag_witness :
  let typing := Json (JObj {[ "type" := JStr "typing"; "isTyping" := JBool true ]}) in
  let w := run [SocketMessage 0 "12:00" typing; InputTyped "hi"] w_connected in
  (connection_event (SocketClosed 0) = true /\ truthy (isTyping (st w)) = true) /\
  sendMessage "12:01" false (step w (SocketClosed 0)) = (inr tt, step w (SocketClosed 0)).
Proof.
  intros typing w.
  assert (H1 : connection_event (SocketClosed 0) = true) by reflexivity.
  assert (H2 : truthy (isTyping (st w)) = true) by reflexivity.
  split; [split; assumption|].
  destruct (connection_events_keep_flag w (SocketClosed 0) H1) as (_ & _ & _ & Hgate).
  exact (Hgate H2 "12:01" false).
Defined.



(** Every turn keeps [state.websocket] among the sockets created. *)
Lemma step_handle_valid (w : world) (e : event) :
  handle_valid w -> handle_valid (step w e).
Proof.
  unfold handle_valid. intros Hvalid.
  destruct e; js_simpl;
    repeat (try solve [handle_done]; split_test; cbn in * );
    try solve [handle_done].
Qed.

Lemma run_handle_valid (es : list event) (w : world) :
  handle_valid w -> handle_valid (run es w).
Proof.
  revert w. induction es as [|e es IH]; intros w H; [exact H|].
  cbn. apply IH, step_handle_valid, H.
Qed.

(** X14: in every world the program reaches, [state.websocket] is [null]
    or the handle of a socket that was created: the send and the
    disconnect never meet a handle without a socket. *)
Theorem current_socket_exists
    (es : list event) (storage : gmap string text) (h : nat) :
  websocket (st (run es (boot storage))) = Some h ->
  exists r, sockets (env (run es (boot storage))) !! h = Some r.
Proof.
  intros Hws. pose proof (run_handle_valid es (boot storage) I) as Hvalid.
  unfold handle_valid in Hvalid. rewrite Hws in Hvalid.
  apply lookup_lt_is_Some_2 in Hvalid. destruct Hvalid as [r Hr]. exists r. exact Hr.
Qed.

Lemma current_socket_exists_witness :
  let es := [PageLoaded; SocketClosed 0; TimerFired 0] in
  websocket (st (run es (boot ∅))) = Some 1 /\
  exists r, sockets (env (run es (boot ∅))) !! 1 = Some r.
Proof.
  intros es.
  assert (H : websocket (st (run es (boot ∅))) = Some 1) by reflexivity.
  split; [exact H | exact (current_socket_exists es ∅ 1 H)].
Defined.

(** One failed attempt: the connecting socket closes, the timer is set and
    fires, and the next socket is connecting. *)
Lemma failed_attempt_round (w : world) (k : nat) :
  persistent_preferred w = true ->
  sockets (env w) = replicate k CLOSED ++ [CONNECTING] ->
  websocket (st w) = Some k ->
  timers (env w) = [] ->
  let w' := run [SocketClosed k; TimerFired 0] w in
  persistent_preferred w' = true /\
  sockets (env w') = replicate (S k) CLOSED ++ [CONNECTING] /\
  websocket (st w') = Some (S k) /\
  timers (env w') = [].
Proof.
  destruct w as [[ms ty ws se] [mi cc cs no so ob inf ti ls]].
  unfold persistent_preferred. cbn. intros Hpref -> -> ->.
  assert (Hk : (replicate k CLOSED ++ [CONNECTING]) !! k = Some CONNECTING).
  { apply list_lookup_middle. rewrite length_replicate. reflexivity. }
  assert (Hclosed : <[k := CLOSED]> (replicate k CLOSED ++ [CONNECTING]) =
                    replicate (S k) CLOSED).
  { rewrite replicate_S_end.
    rewrite insert_app_r_alt by (rewrite length_replicate; lia).
    rewrite length_replicate, Nat.sub_diag. reflexivity. }
  assert (Hlast : replicate (S k) CLOSED !! k = Some CLOSED).
  { apply lookup_replicate. split; [reflexivity | lia]. }
  assert (H1 :
    step (World (State ms ty (Some k) se)
            (Browser mi cc cs no (replicate k CLOSED ++ [CONNECTING]) ob inf [] ls))
         (SocketClosed k) =
    World (State ms ty (Some k) se)
      (Browser mi cc "connection-status disconnected" no (replicate (S k) CLOSED)
         ob inf [(reconnect_delay, Reconnect)] ls)).
  { unfold step, dispatch, exec, bind at 1, get. cbn [env sockets]. rewrite Hk.
    js_simpl. rewrite Hpref. cbn. unfold on_env, set_timers. cbn.
    rewrite Hclosed. reflexivity. }
  assert (H2 :
    step (World (State ms ty (Some k) se)
            (Browser mi cc "connection-status disconnected" no (replicate (S k) CLOSED)
               ob inf [(reconnect_delay, Reconnect)] ls))
         (TimerFired 0) =
    World (State ms ty (Some (S k)) se)
      (Browser mi cc "connection-status disconnected" no
         (replicate (S k) CLOSED ++ [CONNECTING]) ob inf [] ls)).
  { unfold step, dispatch, exec, bind at 1, get. cbn [env timers lookup list_lookup].
    unfold connectWebSocket, bind, get, modify, websocket_is_open.
    cbn [st env websocket sockets on_env on_st set_timers snd].
    rewrite Hlast. cbn [st env websocket sockets on_env on_st set_timers snd
                        set_sockets set_websocket].
    rewrite length_replicate. reflexivity. }
  unfold run. cbn [fold_left]. rewrite H1, H2. cbn. repeat split. exact Hpref.
Qed.

(** The close that ends a failed attempt sets one timer, of 5000 ms. *)
Lemma failed_attempt_close (w : world) (k : nat) :
  persistent_preferred w = true ->
  sockets (env w) = replicate k CLOSED ++ [CONNECTING] ->
  websocket (st w) = Some k ->
  timers (env w) = [] ->
  timers (env (step w (SocketClosed k))) = [(5000%Z, Reconnect)].
Proof.
  destruct w as [[ms ty ws se] [mi cc cs no so ob inf ti ls]].
  unfold persistent_preferred. cbn. intros Hpref -> -> ->.
  assert (Hk : (replicate k CLOSED ++ [CONNECTING]) !! k = Some CONNECTING).
  { apply list_lookup_middle. rewrite length_replicate. reflexivity. }
  unfold step, dispatch, exec, bind at 1, get. cbn [env sockets]. rewrite Hk.
  js_simpl. rewrite Hpref. reflexivity.
Qed.

(** X15: the reconnection never gives up.  While the WebSocket is
    preferred, each failed attempt (the connecting socket closes, the
    timer fires) leaves one more closed socket behind and a new one
    connecting, for any number of attempts; and the close of every
    attempt, the first as the last, sets the one timer to 5000 ms: the
    delay does not grow and the attempts have no bound. *)
Theorem retries_never_stop (n k : nat) (w : world) :
  persistent_preferred w = true ->
  sockets (env w) = replicate k CLOSED ++ [CONNECTING] ->
  websocket (st w) = Some k ->
  timers (env w) = [] ->
  let w' := run (failed_attempts k n) w in
  (sockets (env w') = replicate (k + n) CLOSED ++ [CONNECTING] /\
   websocket (st w') = Some (k + n) /\
   timers (env w') = [] /\
   persistent_preferred w' = true) /\
  (forall j, j < n ->
     timers (env (step (run (failed_attempts k j) w) (SocketClosed (k + j)))) =
     [(5000%Z, Reconnect)]).
Proof.
  revert k w. induction n as [|n IH]; intros k w Hpref Hsock Hws Htim.
  - cbn. rewrite Nat.add_0_r. split; [repeat split; assumption|]. lia.
  - destruct (failed_attempt_round w k Hpref Hsock Hws Htim)
      as (Hpref' & Hsock' & Hws' & Htim').
    destruct (IH (S k) _ Hpref' Hsock' Hws' Htim') as [Hend Hdelay].
    change (run (failed_attempts k (S n)) w)
      with (run (failed_attempts (S k) n) (run [SocketClosed k; TimerFired 0] w)).
    cbv zeta. rewrite <- Nat.add_succ_comm. split; [exact Hend|].
    intros [|j] Hj.
    + rewrite Nat.add_0_r. apply (failed_attempt_close w k Hpref Hsock Hws Htim).
    + change (run (failed_attempts k (S j)) w)
        with (run (failed_attempts (S k) j) (run [SocketClosed k; TimerFired 0] w)).
      rewrite <- Nat.add_succ_comm. apply Hdelay. lia.
Qed.

Lemma retries_never_stop_witness :
  (persistent_preferred w_loaded = true /\
   sockets (env w_loaded) = replicate 0 CLOSED ++ [CONNECTING] /\
   websocket (st w_loaded) = Some 0 /\
   timers (env w_loaded) = []) /\
  sockets (env (run (failed_attempts 0 3) w_loaded)) =
    [CLOSED; CLOSED; CLOSED; CONNECTING] /\
  websocket (st (run (failed_attempts 0 3) w_loaded)) = Some 3 /\
  timers (env (run [SocketClosed 0; TimerFired 0; SocketClosed 1; TimerFired 0;
                    SocketClosed 2] w_loaded)) = [(5000%Z, Reconnect)].
Proof.
  assert (H1 : persistent_preferred w_loaded = true) by reflexivity.
  assert (H2 : sockets (env w_loaded) = replicate 0 CLOSED ++ [CONNECTING]) by reflexivity.
  assert (H3 : websocket (st w_loaded) = Some 0) by reflexivity.
  assert (H4 : timers (env w_loaded) = []) by reflexivity.
  split; [repeat split; assumption|].
  destruct (retries_never_stop 3 0 w_loaded H1 H2 H3 H4) as ((Hs & Hw & _) & Hdelay).
  split; [exact Hs|]. split; [exact Hw|].
  apply (Hdelay 2). lia.
Defined.

(** X16: [disconnectWebSocket] leaves no current socket: [state.websocket]
    is [null], the socket it pointed to is neither open nor connecting any
    more, no socket is added or removed, and a second call does nothing. *)
Theorem disconnect_leaves_no_socket (w : world) :
  let w' := exec disconnectWebSocket w in
  websocket (st w') = None /\
  websocket_is_open w' = false /\
  length (sockets (env w')) = length (sockets (env w)) /\
  (forall h, websocket (st w) = Some h ->
             sockets (env w') !! h <> Some OPEN /\
             sockets (env w') !! h <> Some CONNECTING) /\
  disconnectWebSocket w' = (inr tt, w').
Proof.
  js_simpl. unfold websocket_is_open.
  destruct (websocket (st w)) as [h|] eqn:Hws; cbn; rewrite ?Hws; cbn.
  - rewrite length_alter.
    split; [reflexivity|]. split; [reflexivity|]. split; [reflexivity|].
    split; [|reflexivity].
    intros h' Hh'. injection Hh' as <-. rewrite list_lookup_alter.
    rewrite decide_True by reflexivity.
    destruct (sockets (env w) !! h) as [[]|]; cbn; split; discriminate.
  - rewrite ?Hws.
    split; [reflexivity|]. split; [reflexivity|]. split; [reflexivity|].
    split; [|reflexivity]. intros h' Hh'. discriminate Hh'.
Qed.

(** ** Reset and health check *)

(** X17: a declined reset does nothing.  A reset request that settles
    never throws and never touches the typing flag, the requests in
    flight or the settings; it empties the log and the chat and shows the
    success notice under a success status, shows the failure notice when
    the request was rejected, and does nothing at all, without a notice,
    under any other status. *)
Theorem reset_settles (w : world) (r : outcome) :
  let w' := exec (resetConversation_resumed r) w in
  resetConversation false w = (inr tt, w) /\
  resetConversation_resumed r w = (inr tt, w') /\
  isTyping (st w') = isTyping (st w) /\
  inflight (env w') = inflight (env w) /\
  settings (st w') = settings (st w) /\
  match r with
  | NetworkError =>
      messages (st w') = messages (st w) /\
      notices (env w') =
        notices (env w) ++ [ErrorNotice (JStr "Failed to reset conversation")]
  | Response status _ =>
      if response_ok status
      then messages (st w') = [] /\ chatContainer (env w') = [] /\
           notices (env w') =
             notices (env w) ++ [SuccessNotice (JStr "Conversation reset successfully!")]
      else w' = w
  end.
Proof.
  destruct r as [|status payload]; js_simpl.
  - repeat split; reflexivity.
  - destruct (response_ok status); cbn; repeat split; reflexivity.
Qed.

(** X18: the health check looks at the body only.  A reply whose body is
    JSON passes without a notice under any status, a 500 as well as a
    200; a rejected request or a body that is not JSON shows the one
    notice that the API cannot be reached.  Neither case throws. *)
Theorem health_check_ignores_status (w : world) (r : outcome) :
  checkApiHealth_resumed r w =
  (inr tt,
   match r with
   | Response _ (Json _) => w
   | _ =>
       on_env (fun b => set_notices (notices b ++
         [ErrorNotice (JStr "Failed to connect to the chatbot API. Make sure the backend server is running.")]) b) w
   end).
Proof. destruct r as [|status [v|s]]; reflexivity. Qed.

(** ** The theme *)

(** X19: toggling keeps the theme, the class of the body and the icon in
    agreement, saves the new theme, always changes the theme, and
    toggling twice gives back the theme, the class and the icon. *)
Theorem toggle_keeps_theme_coherent (v : theme_view) :
  theme_coherent v ->
  theme_coherent (toggleTheme v) /\
  saved_theme (toggleTheme v) = Some (theme (toggleTheme v)) /\
  theme (toggleTheme v) <> theme v /\
  theme (toggleTheme (toggleTheme v)) = theme v /\
  light_theme (toggleTheme (toggleTheme v)) = light_theme v /\
  theme_icon (toggleTheme (toggleTheme v)) = theme_icon v.
Proof.
  destruct v as [t l i s]. unfold theme_coherent. cbn.
  intros [(-> & -> & ->)|(-> & -> & ->)]; cbn;
    (split; [first [left; repeat split; reflexivity | right; repeat split; reflexivity]|]);
    repeat split; try reflexivity; discriminate.
Qed.

Lemma toggle_keeps_theme_coherent_witness :
  let v := ThemeView "dark" false Moon None in
  theme_coherent v /\
  theme_coherent (toggleTheme v) /\
  saved_theme (toggleTheme v) = Some "light".
Proof.
  intros v.
  assert (H : theme_coherent v) by (left; repeat split; reflexivity).
  split; [exact H|].
  destruct (toggle_keeps_theme_coherent v H) as (Hc & Hs & _).
  split; [exact Hc | exact Hs].
Defined.

(** X20: the theme survives a reload.  When a toggle has saved its theme,
    [loadTheme] on a page that starts in the dark theme, with the class
    and the icon of the dark theme, restores the saved theme, its class
    and its icon. *)
Theorem theme_round_trip (v fresh : theme_view) :
  theme_coherent v ->
  theme_coherent fresh ->
  theme fresh = "dark" ->
  saved_theme fresh = saved_theme (toggleTheme v) ->
  theme (loadTheme fresh) = theme (toggleTheme v) /\
  light_theme (loadTheme fresh) = light_theme (toggleTheme v) /\
  theme_icon (loadTheme fresh) = theme_icon (toggleTheme v) /\
  theme_coherent (loadTheme fresh).
Proof.
  destruct v as [t l i s], fresh as [t' l' i' s']. unfold theme_coherent. cbn.
  intros [(-> & -> & ->)|(-> & -> & ->)] [(_ & -> & ->)|(Hl & _ & _)] Hdark ->;
    try (rewrite Hdark in Hl; discriminate Hl); subst t'; cbn;
    repeat split; first [reflexivity | left; repeat split; reflexivity
                        | right; repeat split; reflexivity].
Qed.

Lemma theme_round_trip_witness :
  let v := ThemeView "dark" false Moon None in
  let fresh := ThemeView "dark" false Moon (Some "light") in
  (theme_coherent v /\ theme_coherent fresh /\ theme fresh = "dark" /\
   saved_theme fresh = saved_theme (toggleTheme v)) /\
  theme (loadTheme fresh) = "light" /\
  light_theme (loadTheme fresh) = true /\
  theme_icon (loadTheme fresh) = Sun.
Proof.
  intros v fresh.
  assert (H1 : theme_coherent v) by (left; repeat split; reflexivity).
  assert (H2 : theme_coherent fresh) by (left; repeat split; reflexivity).
  assert (H3 : theme fresh = "dark") by reflexivity.
  assert (H4 : saved_theme fresh = saved_theme (toggleTheme v)) by reflexivity.
  split; [repeat split; assumption|].
  destruct (theme_round_trip v fresh H1 H2 H3 H4) as (Ht & Hl & Hi & _).
  split; [exact Ht|]. split; [exact Hl | exact Hi].
Defined.

(** ** Whole exchanges *)

(** The send of a non-blank text typed into an idle page. *)
Lemma typed_send (w : world) (t now : string) :
  trim t <> "" ->
  truthy (isTyping (st w)) = false ->
  run [InputTyped t; SendClicked now false] w =
  let w0 := accepted (trim t) now (on_env (set_messageInput t) w) in
  if persistent_preferred w && websocket_is_open w
  then on_env (fun b =>
         set_outbox (outbox b ++
           [(default 0 (websocket (st w)), ws_frame (trim t) (settings (st w)))]) b) w0
  else exec (sendViaRestAPI (trim t)) w0.
Proof.
  intros Hne Hidle. unfold run. cbn [fold_left].
  change (step w (InputTyped t)) with (on_env (set_messageInput t) w).
  unfold step at 1. unfold dispatch, exec at 1, bind at 1, get.
  rewrite (sendMessage_accepted (on_env (set_messageInput t) w) now false Hne Hidle).
  reflexivity.
Qed.

(** One exchange over the fallback request. *)
Lemma fallback_exchange (w : world) (x : exchange) :
  trim (typed x) <> "" ->
  truthy (isTyping (st w)) = false ->
  persistent_preferred w && websocket_is_open w = false ->
  run (fallback_events (length (inflight (env w))) x) w =
  World (State (messages (st w) ++ exchange_log x) (JBool false)
           (websocket (st w)) (settings (st w)))
    (Browser "" (chatContainer (env w) ++ exchange_log x)
       (connectionStatus (env w)) (notices (env w)) (sockets (env w))
       (outbox (env w)) (inflight (env w)) (timers (env w)) (localStorage (env w))).
Proof.
  intros Hne Hidle Hroute. unfold fallback_events.
  change (run [?a; ?b; ?c] w) with (step (run [a; b] w) c).
  rewrite (typed_send w _ _ Hne Hidle), Hroute.
  destruct w as [[ms ty ws se] [mi cc cs no so ob inf ti ls]].
  unfold step, dispatch, exec at 1, bind at 1, get. cbn.
  rewrite list_lookup_middle by reflexivity.
  unfold accepted. js_simpl. unfold on_env, on_st. cbn.
  rewrite (delete_middle inf []), app_nil_r.
  unfold prop. rewrite lookup_singleton_eq. cbn. unfold exchange_log.
  rewrite <- !app_assoc. reflexivity.
Qed.

(** One exchange over the open socket. *)
Lemma socket_exchange (w : world) (x : exchange) (h : nat) :
  trim (typed x) <> "" ->
  truthy (isTyping (st w)) = false ->
  persistent_preferred w = true ->
  websocket (st w) = Some h ->
  sockets (env w) !! h = Some OPEN ->
  run (socket_events h x) w =
  World (State (messages (st w) ++ exchange_log x) (JBool false)
           (websocket (st w)) (settings (st w)))
    (Browser "" (chatContainer (env w) ++ exchange_log x)
       (connectionStatus (env w)) (notices (env w)) (sockets (env w))
       (outbox (env w) ++ [(h, ws_frame (trim (typed x)) (settings (st w)))])
       (inflight (env w)) (timers (env w)) (localStorage (env w))).
Proof.
  intros Hne Hidle Hpref Hws Hopen. unfold socket_events.
  change (run [?a; ?b; ?c] w) with (step (run [a; b] w) c).
  assert (Hready : websocket_is_open w = true).
  { unfold websocket_is_open. rewrite Hws, Hopen. reflexivity. }
  rewrite (typed_send w _ _ Hne Hidle), Hpref, Hready, Hws. cbn [andb default from_option id].
  assert (Hresp :
    ({[ "type" := JStr "message"; "response" := JStr (answer x) ]}
       : gmap string jsval) !! "response" = Some (JStr (answer x))).
  { rewrite lookup_insert_ne by discriminate. apply lookup_singleton_eq. }
  destruct w as [[ms ty ws se] [mi cc cs no so ob inf ti ls]]. cbn in Hopen, Hws.
  subst ws.
  unfold step, dispatch, exec at 1, bind at 1, get. cbn. rewrite Hopen.
  rewrite onmessage_message by reflexivity.
  unfold accepted. js_simpl. unfold on_env, on_st, prop. cbn.
  rewrite Hresp. cbn.
  unfold exchange_log. rewrite <- !app_assoc. reflexivity.
Qed.

(** X21: over the fallback route, any number of complete exchanges (each
    text sent, then its request answered with a success) leaves the log
    with the two entries of every exchange, user then bot, in the order
    of the exchanges, after what it held before; the chat shows the same,
    no notice is shown and no request is left in flight. *)
Theorem fallback_conversation_in_order (xs : list exchange) (w : world) :
  Forall (fun x => trim (typed x) <> "") xs ->
  truthy (isTyping (st w)) = false ->
  persistent_preferred w && websocket_is_open w = false ->
  let w' := run (flat_map (fallback_events (length (inflight (env w)))) xs) w in
  messages (st w') = messages (st w) ++ flat_map exchange_log xs /\
  chatContainer (env w') = chatContainer (env w) ++ flat_map exchange_log xs /\
  notices (env w') = notices (env w) /\
  inflight (env w') = inflight (env w) /\
  length (messages (st w')) = length (messages (st w)) + 2 * length xs.
Proof.
  intros Hxs. revert w. induction Hxs as [|x xs Hx _ IH]; intros w Hidle Hroute.
  - cbn. rewrite !app_nil_r. repeat split; lia.
  - cbv zeta.
    assert (Hrun :
      run (flat_map (fallback_events (length (inflight (env w)))) (x :: xs)) w =
      run (flat_map (fallback_events (length (inflight (env w)))) xs)
          (run (fallback_events (length (inflight (env w))) x) w)).
    { cbn [flat_map]. unfold run. apply fold_left_app. }
    rewrite Hrun, (fallback_exchange w x Hx Hidle Hroute). clear Hrun.
    set (w1 := World _ _).
    assert (Hidle1 : truthy (isTyping (st w1)) = false) by reflexivity.
    assert (Hroute1 : persistent_preferred w1 && websocket_is_open w1 = false)
      by exact Hroute.
    destruct (IH w1 Hidle1 Hroute1) as (Hm & Hc & Hn & Hf & Hlen).
    change (length (inflight (env w1))) with (length (inflight (env w))) in *.
    rewrite Hlen, Hm, Hc, Hn, Hf. subst w1.
    cbn [st env messages chatContainer notices inflight flat_map].
    rewrite <- !app_assoc. repeat split; try reflexivity.
    rewrite !length_app. cbn. lia.
Qed.

Lemma fallback_conversation_in_order_witness :
  let xs := [Exchange " hi " "12:00" "hello" "12:01"; Exchange "bye" "12:02" "ok" "12:03"] in
  (Forall (fun x => trim (typed x) <> "") xs /\
   truthy (isTyping (st w_loaded)) = false /\
   persistent_preferred w_loaded && websocket_is_open w_loaded = false) /\
  messages (st (run (flat_map (fallback_events (length (inflight (env w_loaded)))) xs)
                    w_loaded)) =
  [Message "user" (JStr "hi") "12:00"; Message "bot" (JStr "hello") "12:01";
   Message "user" (JStr "bye") "12:02"; Message "bot" (JStr "ok") "12:03"].
Proof.
  intros xs.
  assert (H1 : Forall (fun x => trim (typed x) <> "") xs).
  { repeat constructor; intros H; vm_compute in H; discriminate H. }
  assert (H2 : truthy (isTyping (st w_loaded)) = false) by reflexivity.
  assert (H3 : persistent_preferred w_loaded && websocket_is_open w_loaded = false)
    by reflexivity.
  split; [repeat split; assumption|].
  exact (proj1 (fallback_conversation_in_order xs w_loaded H1 H2 H3)).
Defined.

(** X22: over the open socket likewise: any number of complete exchanges
    (each text sent, then one [message] frame received) leaves the log
    with the two entries of every exchange, user then bot, in the order
    of the exchanges; one frame per exchange has gone out, in the same
    order, and no request was made. *)
Theorem socket_conversation_in_order (xs : list exchange) (w : world) (h : nat) :
  Forall (fun x => trim (typed x) <> "") xs ->
  truthy (isTyping (st w)) = false ->
  persistent_preferred w = true ->
  websocket (st w) = Some h ->
  sockets (env w) !! h = Some OPEN ->
  let w' := run (flat_map (socket_events h) xs) w in
  messages (st w') = messages (st w) ++ flat_map exchange_log xs /\
  chatContainer (env w') = chatContainer (env w) ++ flat_map exchange_log xs /\
  outbox (env w') =
    outbox (env w) ++
    map (fun x => (h, ws_frame (trim (typed x)) (settings (st w)))) xs /\
  inflight (env w') = inflight (env w) /\
  notices (env w') = notices (env w).
Proof.
  intros Hxs. revert w.
  induction Hxs as [|x xs Hx _ IH]; intros w Hidle Hpref Hws Hopen.
  - cbn. rewrite !app_nil_r. repeat split; reflexivity.
  - cbv zeta.
    assert (Hrun :
      run (flat_map (socket_events h) (x :: xs)) w =
      run (flat_map (socket_events h) xs) (run (socket_events h x) w)).
    { cbn [flat_map]. unfold run. apply fold_left_app. }
    rewrite Hrun, (socket_exchange w x h Hx Hidle Hpref Hws Hopen). clear Hrun.
    set (w1 := World _ _).
    assert (Hidle1 : truthy (isTyping (st w1)) = false) by reflexivity.
    assert (Hpref1 : persistent_preferred w1 = true) by exact Hpref.
    assert (Hws1 : websocket (st w1) = Some h) by exact Hws.
    assert (Hopen1 : sockets (env w1) !! h = Some OPEN) by exact Hopen.
    destruct (IH w1 Hidle1 Hpref1 Hws1 Hopen1) as (Hm & Hc & Ho & Hf & Hn).
    rewrite Hm, Hc, Ho, Hf, Hn. subst w1.
    cbn [st env messages chatContainer notices inflight outbox settings flat_map map].
    rewrite <- !app_assoc. repeat split; reflexivity.
Qed.

Lemma socket_conversation_in_order_witness :
  let xs := [Exchange "hi" "12:00" "hello" "12:01"; Exchange "bye" "12:02" "ok" "12:03"] in
  (Forall (fun x => trim (typed x) <> "") xs /\
   truthy (isTyping (st w_connected)) = false /\
   persistent_preferred w_connected = true /\
   websocket (st w_connected) = Some 0 /\
   sockets (env w_connected) !! 0 = Some OPEN) /\
  messages (st (run (flat_map (socket_events 0) xs) w_connected)) =
  [Message "user" (JStr "hi") "12:00"; Message "bot" (JStr "hello") "12:01";
   Message "user" (JStr "bye") "12:02"; Message "bot" (JStr "ok") "12:03"].
Proof.
  intros xs.
  assert (H1 : Forall (fun x => trim (typed x) <> "") xs).
  { repeat constructor; intros H; vm_compute in H; discriminate H. }
  assert (H2 : truthy (isTyping (st w_connected)) = false) by reflexivity.
  assert (H3 : persistent_preferred w_connected = true) by reflexivity.
  assert (H4 : websocket (st w_connected) = Some 0) by reflexivity.
  assert (H5 : sockets (env w_connected) !! 0 = Some OPEN) by reflexivity.
  split; [repeat split; assumption|].
  exact (proj1 (socket_conversation_in_order xs w_connected 0 H1 H2 H3 H4 H5)).
Defined.
